(** * Shallow embedding of src/cuda/z80_common.h (host-side Z80 executor)

    Bytes and 16-bit words are modelled as [Z]; every store into a
    [uint8_t] or [uint16_t] is written out as a [Z.land] with the width
    mask, as the C conversion does. *)

From Stdlib Require Import ZArith List Bool Lia.
Import ListNotations.
Local Open Scope Z_scope.

(** ** Flag bits *)
Definition FLAG_C := 1.
Definition FLAG_N := 2.
Definition FLAG_P := 4.
Definition FLAG_V := 4.
Definition FLAG_3 := 8.
Definition FLAG_H := 16.
Definition FLAG_5 := 32.
Definition FLAG_Z := 64.
Definition FLAG_S := 128.

(** ** CPU state: [uint8_t r[8]] (A=0, F=1, B=2, C=3, D=4, E=5, H=6, L=7)
    and [uint16_t sp]. *)
Record Z80State := mkState {
  rA : Z; rF : Z; rB : Z; rC : Z; rD : Z; rE : Z; rH : Z; rL : Z;
  sp : Z
}.

Definition REG_A := 0.
Definition REG_F := 1.
Definition REG_B := 2.
Definition REG_C := 3.
Definition REG_D := 4.
Definition REG_E := 5.
Definition REG_H := 6.
Definition REG_L := 7.

(** [s.r[i]]. The register-id tables only hold 0..7, so the default
    branches are never reached by the executor. *)
Definition get_r (s : Z80State) (i : Z) : Z :=
  match i with
  | 0 => rA s | 1 => rF s | 2 => rB s | 3 => rC s
  | 4 => rD s | 5 => rE s | 6 => rH s | 7 => rL s
  | _ => 0
  end.

(** [s.r[i] = v]. *)
Definition set_r (s : Z80State) (i : Z) (v : Z) : Z80State :=
  let '(mkState a f b c d e h l p) := s in
  match i with
  | 0 => mkState v f b c d e h l p
  | 1 => mkState a v b c d e h l p
  | 2 => mkState a f v c d e h l p
  | 3 => mkState a f b v d e h l p
  | 4 => mkState a f b c v e h l p
  | 5 => mkState a f b c d v h l p
  | 6 => mkState a f b c d e v l p
  | 7 => mkState a f b c d e h v p
  | _ => s
  end.

Definition set_sp (s : Z80State) (v : Z) : Z80State :=
  let '(mkState a f b c d e h l _) := s in mkState a f b c d e h l v.

(** Every register is a byte and sp a 16-bit word. *)
Definition wf_state (s : Z80State) : Prop :=
  0 <= rA s < 256 /\ 0 <= rF s < 256 /\ 0 <= rB s < 256 /\ 0 <= rC s < 256 /\
  0 <= rD s < 256 /\ 0 <= rE s < 256 /\ 0 <= rH s < 256 /\ 0 <= rL s < 256 /\
  0 <= sp s < 65536.

(** ** Opcode range constants *)
Definition OP_LD_RR_START := 0.
Definition OP_LD_RN_START := 49.
Definition OP_ALU_START := 56.
Definition OP_INC_START := 120.
Definition OP_DEC_START := 127.
Definition OP_RLCA := 134.
Definition OP_RRCA := 135.
Definition OP_RLA := 136.
Definition OP_RRA := 137.
Definition OP_DAA := 138.
Definition OP_CPL := 139.
Definition OP_SCF := 140.
Definition OP_CCF := 141.
Definition OP_NEG := 142.
Definition OP_NOP := 143.
Definition OP_CB_START := 144.
Definition OP_SLL_A := 193.
Definition OP_SLL_B_START := 194.
Definition OP_BIT_START := 200.
Definition OP_RES_START := 256.
Definition OP_SET_START := 312.
Definition OP_16INC_START := 368.
Definition OP_ADD_HL_START := 376.
Definition OP_EX_DE_HL := 380.
Definition OP_LD_SP_HL := 381.
Definition OP_LD_RR_NN_START := 382.
Definition OP_ADC_HL_START := 386.
Definition OP_SBC_HL_START := 390.
Definition OP_COUNT := 394.

Definition FP_SIZE : nat := 10.
Definition NUM_VECTORS : nat := 8.
Definition FP_LEN : nat := FP_SIZE * NUM_VECTORS.

(** ** Test vectors *)
Definition h_test_vectors : list Z80State := [
  mkState 0x00 0x00 0x00 0x00 0x00 0x00 0x00 0x00 0x0000;
  mkState 0xFF 0xFF 0xFF 0xFF 0xFF 0xFF 0xFF 0xFF 0xFFFF;
  mkState 0x01 0x00 0x02 0x03 0x04 0x05 0x06 0x07 0x1234;
  mkState 0x80 0x01 0x40 0x20 0x10 0x08 0x04 0x02 0x8000;
  mkState 0x55 0x00 0xAA 0x55 0xAA 0x55 0xAA 0x55 0x5555;
  mkState 0xAA 0x01 0x55 0xAA 0x55 0xAA 0x55 0xAA 0xAAAA;
  mkState 0x0F 0x00 0xF0 0x0F 0xF0 0x0F 0xF0 0x0F 0xFFFE;
  mkState 0x7F 0x01 0x80 0x7F 0x80 0x7F 0x80 0x7F 0x7FFF ].

(** ** Arrays: [T[i]] reads and [T[i] = x] stores on a C array. *)
Definition at_ (t : list Z) (i : Z) : Z := nth (Z.to_nat i) t 0.

Fixpoint upd (l : list Z) (i : nat) (x : Z) : list Z :=
  match l, i with
  | [], _ => []
  | _ :: tl, O => x :: tl
  | y :: tl, S k => y :: upd tl k x
  end.

Definition updZ (l : list Z) (i : Z) (x : Z) : list Z := upd l (Z.to_nat i) x.

(** ** Flag tables *)
Record Tables := mkTables { h_sz53 : list Z; h_sz53p : list Z; h_parity : list Z }.

(** The three [static uint8_t [256]] arrays before [init_tables]: zero. *)
Definition static_tables : Tables :=
  mkTables (repeat 0 256) (repeat 0 256) (repeat 0 256).

Definition h_halfcarry_add := [0; FLAG_H; FLAG_H; FLAG_H; 0; 0; 0; FLAG_H].
Definition h_halfcarry_sub := [0; 0; FLAG_H; 0; FLAG_H; 0; FLAG_H; FLAG_H].
Definition h_overflow_add := [0; 0; 0; FLAG_V; FLAG_V; 0; 0; 0].
Definition h_overflow_sub := [0; FLAG_V; 0; 0; 0; 0; FLAG_V; 0].

(** [for (k = 0; k < 8; k++) { p ^= j & 1; j >>= 1; }] *)
Fixpoint parity_loop (k : nat) (j p : Z) : Z :=
  match k with
  | O => p
  | S k' => parity_loop k' (Z.shiftr j 1) (Z.lxor p (Z.land j 1))
  end.

(** Body of the outer loop at index [i]. *)
Definition init_step (t : Tables) (i : Z) : Tables :=
  let sz := Z.land (Z.land i 255) (Z.lor (Z.lor FLAG_3 FLAG_5) FLAG_S) in
  let p := parity_loop 8 (Z.land i 255) 0 in
  let par := if p =? 0 then FLAG_P else 0 in
  mkTables (updZ (h_sz53 t) i sz)
           (updZ (h_sz53p t) i (Z.lor sz par))
           (updZ (h_parity t) i par).

Definition init_tables (t : Tables) : Tables :=
  let t1 := fold_left init_step (map Z.of_nat (seq 0 256)) t in
  mkTables (updZ (h_sz53 t1) 0 (Z.lor (at_ (h_sz53 t1) 0) FLAG_Z))
           (updZ (h_sz53p t1) 0 (Z.lor (at_ (h_sz53p t1) 0) FLAG_Z))
           (h_parity t1).

(** The tables read by the executor: [init_tables] run once on the
    zero-initialised static arrays (evaluated once, here). *)
Definition tables : Tables := Eval vm_compute in init_tables static_tables.

Definition sz53 (v : Z) : Z := at_ (h_sz53 tables) v.
Definition sz53p (v : Z) : Z := at_ (h_sz53p tables) v.
Definition parity (v : Z) : Z := at_ (h_parity tables) v.

(** ** Register mapping tables *)
Definition LD_FULL_SRC_H : list Z := [
  REG_B; REG_C; REG_D; REG_E; REG_H; REG_L; REG_A;
  REG_A; REG_B; REG_C; REG_D; REG_E; REG_H; REG_L;
  REG_A; REG_B; REG_C; REG_D; REG_E; REG_H; REG_L;
  REG_A; REG_B; REG_C; REG_D; REG_E; REG_H; REG_L;
  REG_A; REG_B; REG_C; REG_D; REG_E; REG_H; REG_L;
  REG_A; REG_B; REG_C; REG_D; REG_E; REG_H; REG_L;
  REG_A; REG_B; REG_C; REG_D; REG_E; REG_H; REG_L ].
Definition LD_DST_H : list Z := [REG_A; REG_B; REG_C; REG_D; REG_E; REG_H; REG_L].
Definition ALU_SRC_H : list Z := [REG_B; REG_C; REG_D; REG_E; REG_H; REG_L; REG_A].
Definition CB_REG_H : list Z := [REG_A; REG_B; REG_C; REG_D; REG_E; REG_H; REG_L].
Definition IMM_REG_H : list Z := [REG_A; REG_B; REG_C; REG_D; REG_E; REG_H; REG_L].
Definition INCDEC_REG_H : list Z := [REG_A; REG_B; REG_C; REG_D; REG_E; REG_H; REG_L].

(** ** ALU engine *)
Definition bsel_h (cond : bool) (a b : Z) : Z := if cond then a else b.

(** C truth value of an integer expression. *)
Definition nz (x : Z) : bool := negb (x =? 0).

Definition u8 (x : Z) : Z := Z.land x 255.
Definition u16 (x : Z) : Z := Z.land x 65535.
Definition u32 (x : Z) : Z := Z.land x 4294967295.

(** [((a & 0x88) >> 3) | ((v & 0x88) >> 2) | (uint8_t)((r & 0x88) >> 1)] *)
Definition lookup8 (a v r : Z) : Z :=
  u8 (Z.lor (Z.lor (Z.shiftr (Z.land a 0x88) 3) (Z.shiftr (Z.land v 0x88) 2))
            (u8 (Z.shiftr (Z.land r 0x88) 1))).

Definition with_A_F (s : Z80State) (a f : Z) : Z80State := set_r (set_r s REG_A a) REG_F f.

Definition h_alu_add (s : Z80State) (val : Z) : Z80State :=
  let r := u16 (rA s + val) in
  let lookup := lookup8 (rA s) val r in
  let a := u8 r in
  with_A_F s a
    (Z.lor (Z.lor (Z.lor (bsel_h (nz (Z.land r 0x100)) FLAG_C 0)
                         (at_ h_halfcarry_add (Z.land lookup 7)))
                  (at_ h_overflow_add (Z.shiftr lookup 4)))
           (sz53 a)).

Definition h_alu_adc (s : Z80State) (val : Z) : Z80State :=
  let r := u16 (rA s + val + Z.land (rF s) FLAG_C) in
  let lookup := u8 (Z.lor (Z.lor (Z.shiftr (Z.land (rA s) 0x88) 3)
                                 (Z.shiftr (Z.land val 0x88) 2))
                          (Z.shiftr (Z.land r 0x88) 1)) in
  let a := u8 r in
  with_A_F s a
    (Z.lor (Z.lor (Z.lor (bsel_h (nz (Z.land r 0x100)) FLAG_C 0)
                         (at_ h_halfcarry_add (Z.land lookup 7)))
                  (at_ h_overflow_add (Z.shiftr lookup 4)))
           (sz53 a)).

Definition h_alu_sub (s : Z80State) (val : Z) : Z80State :=
  let r := u16 (rA s - val) in
  let lookup := lookup8 (rA s) val r in
  let a := u8 r in
  with_A_F s a
    (Z.lor (Z.lor (Z.lor (Z.lor (bsel_h (nz (Z.land r 0x100)) FLAG_C 0) FLAG_N)
                         (at_ h_halfcarry_sub (Z.land lookup 7)))
                  (at_ h_overflow_sub (Z.shiftr lookup 4)))
           (sz53 a)).

Definition h_alu_sbc (s : Z80State) (val : Z) : Z80State :=
  let r := u16 (rA s - val - Z.land (rF s) FLAG_C) in
  let lookup := lookup8 (rA s) val r in
  let a := u8 r in
  with_A_F s a
    (Z.lor (Z.lor (Z.lor (Z.lor (bsel_h (nz (Z.land r 0x100)) FLAG_C 0) FLAG_N)
                         (at_ h_halfcarry_sub (Z.land lookup 7)))
                  (at_ h_overflow_sub (Z.shiftr lookup 4)))
           (sz53 a)).

Definition h_alu_and (s : Z80State) (val : Z) : Z80State :=
  let a := u8 (Z.land (rA s) val) in
  with_A_F s a (u8 (Z.lor FLAG_H (sz53p a))).

Definition h_alu_xor (s : Z80State) (val : Z) : Z80State :=
  let a := u8 (Z.lxor (rA s) val) in
  with_A_F s a (sz53p a).

Definition h_alu_or (s : Z80State) (val : Z) : Z80State :=
  let a := u8 (Z.lor (rA s) val) in
  with_A_F s a (sz53p a).

Definition h_alu_cp (s : Z80State) (val : Z) : Z80State :=
  let r := u16 (rA s - val) in
  let lookup := lookup8 (rA s) val r in
  set_r s REG_F
    (u8 (Z.lor (Z.lor (Z.lor (Z.lor (Z.lor
       (bsel_h (nz (Z.land r 0x100)) FLAG_C (bsel_h (nz r) 0 FLAG_Z)) FLAG_N)
       (at_ h_halfcarry_sub (Z.land lookup 7)))
       (at_ h_overflow_sub (Z.shiftr lookup 4)))
       (Z.land val (Z.lor FLAG_3 FLAG_5)))
       (u8 (Z.land r FLAG_S)))).

(** [s.r[reg]++] and then the flags from the new value. *)
Definition h_alu_inc (s : Z80State) (reg : Z) : Z80State :=
  let s1 := set_r s reg (u8 (get_r s reg + 1)) in
  let x := get_r s1 reg in
  set_r s1 REG_F
    (Z.lor (Z.lor (Z.lor (Z.land (get_r s1 REG_F) FLAG_C)
                         (bsel_h (x =? 0x80) FLAG_V 0))
                  (bsel_h (nz (Z.land x 0x0F)) 0 FLAG_H))
           (sz53 x)).

(** Flags first (from the old value), then [s.r[reg]--], then more flags. *)
Definition h_alu_dec (s : Z80State) (reg : Z) : Z80State :=
  let s1 := set_r s REG_F
    (Z.lor (Z.lor (Z.land (rF s) FLAG_C)
                  (bsel_h (nz (Z.land (get_r s reg) 0x0F)) 0 FLAG_H)) FLAG_N) in
  let s2 := set_r s1 reg (u8 (get_r s1 reg - 1)) in
  let x := get_r s2 reg in
  set_r s2 REG_F
    (u8 (Z.lor (get_r s2 REG_F) (Z.lor (bsel_h (x =? 0x7F) FLAG_V 0) (sz53 x)))).

(** ** Bit / rotate / shift engine: each returns the state with the new
    flags and the new register value. *)
Definition h_cb_rlc (s : Z80State) (v : Z) : Z80State * Z :=
  let v := u8 (Z.lor (Z.shiftl v 1) (Z.shiftr v 7)) in
  (set_r s REG_F (Z.lor (Z.land v FLAG_C) (sz53p v)), v).
Definition h_cb_rrc (s : Z80State) (v : Z) : Z80State * Z :=
  let f := Z.land v FLAG_C in
  let v := u8 (Z.lor (Z.shiftr v 1) (Z.shiftl v 7)) in
  (set_r s REG_F (Z.lor f (sz53p v)), v).
Definition h_cb_rl (s : Z80State) (v : Z) : Z80State * Z :=
  let o := v in
  let v := u8 (Z.lor (Z.shiftl v 1) (Z.land (rF s) FLAG_C)) in
  (set_r s REG_F (Z.lor (Z.shiftr o 7) (sz53p v)), v).
Definition h_cb_rr (s : Z80State) (v : Z) : Z80State * Z :=
  let o := v in
  let v := u8 (Z.lor (Z.shiftr v 1) (Z.shiftl (rF s) 7)) in
  (set_r s REG_F (Z.lor (Z.land o FLAG_C) (sz53p v)), v).
Definition h_cb_sla (s : Z80State) (v : Z) : Z80State * Z :=
  let f := Z.shiftr v 7 in
  let v := u8 (Z.shiftl v 1) in
  (set_r s REG_F (Z.lor f (sz53p v)), v).
Definition h_cb_sra (s : Z80State) (v : Z) : Z80State * Z :=
  let f := Z.land v FLAG_C in
  let v := u8 (Z.lor (Z.land v 0x80) (Z.shiftr v 1)) in
  (set_r s REG_F (Z.lor f (sz53p v)), v).
Definition h_cb_srl (s : Z80State) (v : Z) : Z80State * Z :=
  let f := Z.land v FLAG_C in
  let v := u8 (Z.shiftr v 1) in
  (set_r s REG_F (Z.lor f (sz53p v)), v).
Definition h_cb_sll (s : Z80State) (v : Z) : Z80State * Z :=
  let f := Z.shiftr v 7 in
  let v := u8 (Z.lor (Z.shiftl v 1) 1) in
  (set_r s REG_F (Z.lor f (sz53p v)), v).

Definition h_exec_bit (s : Z80State) (val bit : Z) : Z80State :=
  let f0 := Z.lor (Z.lor (Z.land (rF s) FLAG_C) FLAG_H) (Z.land val (Z.lor FLAG_3 FLAG_5)) in
  let f1 := if Z.land val (Z.shiftl 1 bit) =? 0 then Z.lor f0 (Z.lor FLAG_P FLAG_Z) else f0 in
  let f2 := if (bit =? 7) && nz (Z.land val 0x80) then Z.lor f1 FLAG_S else f1 in
  set_r s REG_F f2.

Definition h_exec_daa (s : Z80State) : Z80State :=
  let carry0 := Z.land (rF s) FLAG_C in
  let add0 := if nz (Z.land (rF s) FLAG_H) || (9 <? Z.land (rA s) 0x0F) then 6 else 0 in
  let add := if nz carry0 || (0x99 <? rA s) then Z.lor add0 0x60 else add0 in
  let carry := if 0x99 <? rA s then FLAG_C else carry0 in
  let s1 := if nz (Z.land (rF s) FLAG_N) then h_alu_sub s add else h_alu_add s add in
  set_r s1 REG_F
    (u8 (Z.lor (Z.lor (Z.land (rF s1) (Z.lnot (Z.lor FLAG_C FLAG_P))) carry)
               (parity (rA s1)))).

(** ** 16-bit engine *)
Definition hl_of (s : Z80State) : Z := Z.lor (Z.shiftl (rH s) 8) (rL s).

Definition h_exec_add_hl (s : Z80State) (val : Z) : Z80State :=
  let hl := hl_of s in
  let result := u32 (hl + val) in
  let hc := u16 (Z.land hl 0x0FFF + Z.land val 0x0FFF) in
  let s1 := set_r s REG_F
    (u8 (Z.lor (Z.lor (Z.lor (Z.land (rF s) (Z.lor (Z.lor FLAG_S FLAG_Z) FLAG_P))
                             (bsel_h (nz (Z.land hc 0x1000)) FLAG_H 0))
                      (bsel_h (nz (Z.land result 0x10000)) FLAG_C 0))
               (Z.land (u8 (Z.shiftr result 8)) (Z.lor FLAG_3 FLAG_5)))) in
  let s2 := set_r s1 REG_H (u8 (Z.shiftr result 8)) in
  set_r s2 REG_L (u8 result).

Definition lookup16 (hl val result : Z) : Z :=
  u8 (Z.lor (Z.lor (Z.shiftr (Z.land hl 0x8800) 11) (Z.shiftr (Z.land val 0x8800) 10))
            (Z.shiftr (Z.land result 0x8800) 9)).

Definition h_exec_adc_hl (s : Z80State) (val : Z) : Z80State :=
  let hl := hl_of s in
  let carry := Z.land (rF s) FLAG_C in
  let result := u32 (hl + val + carry) in
  let lookup := lookup16 hl val result in
  let s1 := set_r (set_r s REG_H (u8 (Z.shiftr result 8))) REG_L (u8 result) in
  set_r s1 REG_F
    (u8 (Z.lor (Z.lor (Z.lor (Z.lor
       (bsel_h (nz (Z.land result 0x10000)) FLAG_C 0)
       (at_ h_overflow_add (Z.shiftr lookup 4)))
       (Z.land (rH s1) (Z.lor (Z.lor FLAG_3 FLAG_5) FLAG_S)))
       (at_ h_halfcarry_add (Z.land lookup 7)))
       (bsel_h (nz (Z.lor (rH s1) (rL s1))) 0 FLAG_Z))).

Definition h_exec_sbc_hl (s : Z80State) (val : Z) : Z80State :=
  let hl := hl_of s in
  let carry := Z.land (rF s) FLAG_C in
  let result := u32 (hl - val - carry) in
  let lookup := lookup16 hl val result in
  let s1 := set_r (set_r s REG_H (u8 (Z.shiftr result 8))) REG_L (u8 result) in
  set_r s1 REG_F
    (u8 (Z.lor (Z.lor (Z.lor (Z.lor (Z.lor
       (bsel_h (nz (Z.land result 0x10000)) FLAG_C 0) FLAG_N)
       (at_ h_overflow_sub (Z.shiftr lookup 4)))
       (Z.land (rH s1) (Z.lor (Z.lor FLAG_3 FLAG_5) FLAG_S)))
       (at_ h_halfcarry_sub (Z.land lookup 7)))
       (bsel_h (nz (Z.lor (rH s1) (rL s1))) 0 FLAG_Z))).

Definition h_get_pair (s : Z80State) (pair : Z) : Z :=
  match pair with
  | 0 => Z.lor (Z.shiftl (rB s) 8) (rC s)
  | 1 => Z.lor (Z.shiftl (rD s) 8) (rE s)
  | 2 => Z.lor (Z.shiftl (rH s) 8) (rL s)
  | 3 => sp s
  | _ => 0
  end.

(** [val] is the [uint16_t] parameter. *)
Definition h_set_pair (s : Z80State) (pair : Z) (val : Z) : Z80State :=
  match pair with
  | 0 => set_r (set_r s REG_B (u8 (Z.shiftr val 8))) REG_C (u8 val)
  | 1 => set_r (set_r s REG_D (u8 (Z.shiftr val 8))) REG_E (u8 val)
  | 2 => set_r (set_r s REG_H (u8 (Z.shiftr val 8))) REG_L (u8 val)
  | 3 => set_sp s val
  | _ => s
  end.

(** ** Opcode dispatcher

    [h_exec_instruction] is a chain of interval tests; each branch first
    computes its decode-table indices from [op] and then runs its engine
    operation. [decode_op] is that chain with the index arithmetic of
    each branch, [exec_branch] the branch bodies. *)
Inductive Branch :=
| BLdRR (dst_idx src_idx : Z)   (* LD_DST_H[op / 7], LD_FULL_SRC_H[op] *)
| BLdRN (idx : Z)               (* IMM_REG_H[op - 49] *)
| BAlu (alu_op src_idx : Z)     (* switch (alu_op), ALU_SRC_H[src_idx] or imm *)
| BInc (idx : Z)                (* INCDEC_REG_H[op - 120] *)
| BDec (idx : Z)                (* INCDEC_REG_H[op - 127] *)
| BRlca | BRrca | BRla | BRra | BDaa | BCpl | BScf | BCcf | BNeg | BNop
| BCb (cb_op idx : Z)           (* switch (cb_op), CB_REG_H[idx] *)
| BSllA
| BSllR (idx : Z)               (* CB_REG_H[(op - 194) + 1] *)
| BBit (idx bit : Z)            (* CB_REG_H[idx % 7], idx / 7 *)
| BRes (idx bit : Z)
| BSet (idx bit : Z)
| BPair16 (pair : Z) (dec : bool)
| BAddHL (pair : Z)
| BExDeHl | BLdSpHl
| BLdPairNN (pair : Z)
| BAdcHL (pair : Z)
| BSbcHL (pair : Z).

Definition decode_op (op : Z) : option Branch :=
  if op <? 49 then Some (BLdRR (op / 7) op) else
  if op <? 56 then Some (BLdRN (op - 49)) else
  if op <? 120 then Some (BAlu ((op - 56) / 8) ((op - 56) mod 8)) else
  if op <? 127 then Some (BInc (op - 120)) else
  if op <? 134 then Some (BDec (op - 127)) else
  if op =? OP_RLCA then Some BRlca else
  if op =? OP_RRCA then Some BRrca else
  if op =? OP_RLA then Some BRla else
  if op =? OP_RRA then Some BRra else
  if op =? OP_DAA then Some BDaa else
  if op =? OP_CPL then Some BCpl else
  if op =? OP_SCF then Some BScf else
  if op =? OP_CCF then Some BCcf else
  if op =? OP_NEG then Some BNeg else
  if op =? OP_NOP then Some BNop else
  if (OP_CB_START <=? op) && (op <=? 192) then
    Some (BCb ((op - OP_CB_START) / 7) ((op - OP_CB_START) mod 7)) else
  if op =? OP_SLL_A then Some BSllA else
  if (OP_SLL_B_START <=? op) && (op <? 200) then Some (BSllR ((op - OP_SLL_B_START) + 1)) else
  if (OP_BIT_START <=? op) && (op <? OP_RES_START) then
    let idx := op - OP_BIT_START in Some (BBit (idx mod 7) (idx / 7)) else
  if (OP_RES_START <=? op) && (op <? OP_SET_START) then
    let idx := op - OP_RES_START in Some (BRes (idx mod 7) (idx / 7)) else
  if (OP_SET_START <=? op) && (op <? OP_16INC_START) then
    let idx := op - OP_SET_START in Some (BSet (idx mod 7) (idx / 7)) else
  if (OP_16INC_START <=? op) && (op <? OP_ADD_HL_START) then
    let idx := op - OP_16INC_START in Some (BPair16 (idx mod 4) (4 <=? idx)) else
  if (OP_ADD_HL_START <=? op) && (op <? OP_EX_DE_HL) then Some (BAddHL (op - OP_ADD_HL_START)) else
  if op =? OP_EX_DE_HL then Some BExDeHl else
  if op =? OP_LD_SP_HL then Some BLdSpHl else
  if (OP_LD_RR_NN_START <=? op) && (op <? OP_ADC_HL_START) then
    Some (BLdPairNN (op - OP_LD_RR_NN_START)) else
  if (OP_ADC_HL_START <=? op) && (op <? OP_SBC_HL_START) then
    Some (BAdcHL (op - OP_ADC_HL_START)) else
  if (OP_SBC_HL_START <=? op) && (op <? OP_COUNT) then
    Some (BSbcHL (op - OP_SBC_HL_START)) else
  None.

(** [s.r[reg] = f(s, s.r[reg])] *)
Definition cb_assign (f : Z80State -> Z -> Z80State * Z) (s : Z80State) (reg : Z) : Z80State :=
  let '(s1, v) := f s (get_r s reg) in set_r s1 reg v.

Definition PZS := Z.lor (Z.lor FLAG_P FLAG_Z) FLAG_S.
Definition F35 := Z.lor FLAG_3 FLAG_5.

Definition exec_branch (b : Branch) (s : Z80State) (imm : Z) : Z80State :=
  match b with
  | BLdRR d i => set_r s (at_ LD_DST_H d) (get_r s (at_ LD_FULL_SRC_H i))
  | BLdRN i => set_r s (at_ IMM_REG_H i) (u8 imm)
  | BAlu alu_op src_idx =>
      let val := if src_idx <? 7 then get_r s (at_ ALU_SRC_H src_idx) else u8 imm in
      match alu_op with
      | 0 => h_alu_add s val | 1 => h_alu_adc s val
      | 2 => h_alu_sub s val | 3 => h_alu_sbc s val
      | 4 => h_alu_and s val | 5 => h_alu_xor s val
      | 6 => h_alu_or s val  | 7 => h_alu_cp s val
      | _ => s
      end
  | BInc i => h_alu_inc s (at_ INCDEC_REG_H i)
  | BDec i => h_alu_dec s (at_ INCDEC_REG_H i)
  | BRlca =>
      let a := u8 (Z.lor (Z.shiftl (rA s) 1) (Z.shiftr (rA s) 7)) in
      let s1 := set_r s REG_A a in
      set_r s1 REG_F (Z.lor (Z.land (rF s1) PZS) (Z.land a (Z.lor FLAG_C F35)))
  | BRrca =>
      let s1 := set_r s REG_F (Z.lor (Z.land (rF s) PZS) (Z.land (rA s) FLAG_C)) in
      let a := u8 (Z.lor (Z.shiftr (rA s1) 1) (Z.shiftl (rA s1) 7)) in
      let s2 := set_r s1 REG_A a in
      set_r s2 REG_F (Z.lor (rF s2) (Z.land a F35))
  | BRla =>
      let o := rA s in
      let a := u8 (Z.lor (Z.shiftl (rA s) 1) (Z.land (rF s) FLAG_C)) in
      let s1 := set_r s REG_A a in
      set_r s1 REG_F (u8 (Z.lor (Z.lor (Z.land (rF s1) PZS) (Z.land a F35)) (Z.shiftr o 7)))
  | BRra =>
      let o := rA s in
      let a := u8 (Z.lor (Z.shiftr (rA s) 1) (Z.shiftl (rF s) 7)) in
      let s1 := set_r s REG_A a in
      set_r s1 REG_F (Z.lor (Z.lor (Z.land (rF s1) PZS) (Z.land a F35)) (Z.land o FLAG_C))
  | BDaa => h_exec_daa s
  | BCpl =>
      let a := u8 (Z.lxor (rA s) 0xFF) in
      let s1 := set_r s REG_A a in
      set_r s1 REG_F
        (Z.lor (Z.lor (Z.lor (Z.land (rF s1) (Z.lor FLAG_C PZS)) (Z.land a F35)) FLAG_N) FLAG_H)
  | BScf => set_r s REG_F (Z.lor (Z.lor (Z.land (rF s) PZS) (Z.land (rA s) F35)) FLAG_C)
  | BCcf =>
      let c := Z.land (rF s) FLAG_C in
      let f := Z.lor (Z.land (rF s) PZS) (Z.land (rA s) F35) in
      set_r s REG_F (if nz c then Z.lor f FLAG_H else Z.lor f FLAG_C)
  | BNeg => let o := rA s in h_alu_sub (set_r s REG_A 0) o
  | BNop => s
  | BCb cb_op idx =>
      let reg := at_ CB_REG_H idx in
      match cb_op with
      | 0 => cb_assign h_cb_rlc s reg | 1 => cb_assign h_cb_rrc s reg
      | 2 => cb_assign h_cb_rl s reg  | 3 => cb_assign h_cb_rr s reg
      | 4 => cb_assign h_cb_sla s reg | 5 => cb_assign h_cb_sra s reg
      | 6 => cb_assign h_cb_srl s reg
      | _ => s
      end
  | BSllA => cb_assign h_cb_sll s REG_A
  | BSllR idx => cb_assign h_cb_sll s (at_ CB_REG_H idx)
  | BBit idx bit => h_exec_bit s (get_r s (at_ CB_REG_H idx)) bit
  | BRes idx bit =>
      let reg := at_ CB_REG_H idx in
      set_r s reg (u8 (Z.land (get_r s reg) (Z.lxor 0xFFFFFFFF (Z.shiftl 1 bit))))
  | BSet idx bit =>
      let reg := at_ CB_REG_H idx in
      set_r s reg (u8 (Z.lor (get_r s reg) (Z.shiftl 1 bit)))
  | BPair16 p dec =>
      let v := h_get_pair s p in
      h_set_pair s p (u16 (if dec then v - 1 else v + 1))
  | BAddHL p => h_exec_add_hl s (h_get_pair s p)
  | BExDeHl =>
      let td := rD s in let te := rE s in
      set_r (set_r (set_r (set_r s REG_D (rH s)) REG_E (rL s)) REG_H td) REG_L te
  | BLdSpHl => set_sp s (hl_of s)
  | BLdPairNN p => h_set_pair s p imm
  | BAdcHL p => h_exec_adc_hl s (h_get_pair s p)
  | BSbcHL p => h_exec_sbc_hl s (h_get_pair s p)
  end.

(** [h_exec_instruction(s, op, imm)]: an opcode no interval test accepts
    falls off the end of the function. *)
Definition h_exec_instruction (s : Z80State) (op imm : Z) : Z80State :=
  match decode_op op with
  | Some b => exec_branch b s imm
  | None => s
  end.

(** [for (i = 0; i < n; i++) h_exec_instruction(s, ops[i], imms[i]);] *)
Definition h_exec_seq (s : Z80State) (ops imms : list Z) (n : nat) : Z80State :=
  fold_left (fun s i => h_exec_instruction s (nth i ops 0) (nth i imms 0)) (seq 0 n) s.

(** ** Fingerprint and comparator *)
Definition zero_state : Z80State := mkState 0 0 0 0 0 0 0 0 0.

(** Body of the loop over [v]: [fp[off+0] = s.r[REG_A]; ...; fp[off+9] = (uint8_t)s.sp]. *)
Definition fp_store (fp : list Z) (off : nat) (s : Z80State) : list Z :=
  let fp := upd fp (off + 0) (rA s) in
  let fp := upd fp (off + 1) (rF s) in
  let fp := upd fp (off + 2) (rB s) in
  let fp := upd fp (off + 3) (rC s) in
  let fp := upd fp (off + 4) (rD s) in
  let fp := upd fp (off + 5) (rE s) in
  let fp := upd fp (off + 6) (rH s) in
  let fp := upd fp (off + 7) (rL s) in
  let fp := upd fp (off + 8) (u8 (Z.shiftr (sp s) 8)) in
  upd fp (off + 9) (u8 (sp s)).

Definition h_fingerprint (ops imms : list Z) (n : nat) (fp : list Z) : list Z :=
  fold_left (fun fp v =>
      let s := h_exec_seq (nth v h_test_vectors zero_state) ops imms n in
      fp_store fp (v * FP_SIZE) s)
    (seq 0 NUM_VECTORS) fp.

(** The caller's memory around a call of [h_fingerprint]: the two input
    arrays, the output buffer and the flag tables the executor reads. *)
Record Mem := mkMem { m_ops : list Z; m_imms : list Z; m_fp : list Z; m_tables : Tables }.

Definition fingerprint_call (m : Mem) (n : nat) : Mem :=
  mkMem (m_ops m) (m_imms m) (h_fingerprint (m_ops m) (m_imms m) n (m_fp m)) (m_tables m).

Definition h_states_equal (a b : Z80State) (dead_flags : Z) : bool :=
  (rA a =? rA b) &&
  (Z.land (rF a) (Z.lnot dead_flags) =? Z.land (rF b) (Z.lnot dead_flags)) &&
  (rB a =? rB b) && (rC a =? rC b) && (rD a =? rD b) && (rE a =? rE b) &&
  (rH a =? rH b) && (rL a =? rL b) && (sp a =? sp b).

(** ** Spec-side notions used in the statements *)

(** Register image of a state in fingerprint field order. *)
Definition image (s : Z80State) : list Z :=
  [rA s; rF s; rB s; rC s; rD s; rE s; rH s; rL s; u8 (Z.shiftr (sp s) 8); u8 (sp s)].

Definition signed8 (x : Z) : Z := if x <? 128 then x else x - 256.

Definition add_overflows (a b : Z) : bool :=
  let t := signed8 a + signed8 b in (t <? -128) || (127 <? t).
Definition sub_overflows (a b : Z) : bool :=
  let t := signed8 a - signed8 b in (t <? -128) || (127 <? t).

Definition popcount8 (v : Z) : nat :=
  length (filter (Z.testbit v) [0; 1; 2; 3; 4; 5; 6; 7]).

Fixpoint Zseq (lo : Z) (n : nat) : list Z :=
  match n with
  | O => []
  | S k => lo :: Zseq (lo + 1) k
  end.

Definition Zrange (n : nat) : list Z := Zseq 0 n.

(** Scenarios of the spec, section 8. *)
Example scenario2 :
  let s := h_exec_seq (nth 0 h_test_vectors zero_state) [49; 120] [5; 0] 2 in
  rA s = 6 /\ Z.testbit (rF s) 4 = false /\ Z.testbit (rF s) 6 = false /\ Z.testbit (rF s) 2 = false.
Proof. vm_compute. auto. Qed.

Example scenario3 :
  let s := h_exec_seq (nth 1 h_test_vectors zero_state) [120] [0] 1 in
  rA s = 0 /\ Z.testbit (rF s) 6 = true /\ Z.testbit (rF s) 4 = true /\ Z.testbit (rF s) 2 = false.
Proof. vm_compute. auto. Qed.

(** ** Dispatcher partition: the half-open opcode intervals of the
    families, in the order the dispatcher tests them. *)
Definition family_intervals : list (Z * Z) := [
  (OP_LD_RR_START, OP_LD_RN_START); (OP_LD_RN_START, OP_ALU_START);
  (OP_ALU_START, OP_INC_START); (OP_INC_START, OP_DEC_START);
  (OP_DEC_START, OP_RLCA); (OP_RLCA, OP_RRCA); (OP_RRCA, OP_RLA);
  (OP_RLA, OP_RRA); (OP_RRA, OP_DAA); (OP_DAA, OP_CPL); (OP_CPL, OP_SCF);
  (OP_SCF, OP_CCF); (OP_CCF, OP_NEG); (OP_NEG, OP_NOP); (OP_NOP, OP_CB_START);
  (OP_CB_START, OP_SLL_A); (OP_SLL_A, OP_SLL_B_START);
  (OP_SLL_B_START, OP_BIT_START); (OP_BIT_START, OP_RES_START);
  (OP_RES_START, OP_SET_START); (OP_SET_START, OP_16INC_START);
  (OP_16INC_START, OP_ADD_HL_START); (OP_ADD_HL_START, OP_EX_DE_HL);
  (OP_EX_DE_HL, OP_LD_SP_HL); (OP_LD_SP_HL, OP_LD_RR_NN_START);
  (OP_LD_RR_NN_START, OP_ADC_HL_START); (OP_ADC_HL_START, OP_SBC_HL_START);
  (OP_SBC_HL_START, OP_COUNT) ].

Definition in_interval (op : Z) (iv : Z * Z) : bool := (fst iv <=? op) && (op <? snd iv).

(** Position in [family_intervals] of the family a branch belongs to. *)
Definition branch_family (b : Branch) : nat :=
  match b with
  | BLdRR _ _ => 0 | BLdRN _ => 1 | BAlu _ _ => 2 | BInc _ => 3 | BDec _ => 4
  | BRlca => 5 | BRrca => 6 | BRla => 7 | BRra => 8 | BDaa => 9 | BCpl => 10
  | BScf => 11 | BCcf => 12 | BNeg => 13 | BNop => 14 | BCb _ _ => 15
  | BSllA => 16 | BSllR _ => 17 | BBit _ _ => 18 | BRes _ _ => 19 | BSet _ _ => 20
  | BPair16 _ _ => 21 | BAddHL _ => 22 | BExDeHl => 23 | BLdSpHl => 24
  | BLdPairNN _ => 25 | BAdcHL _ => 26 | BSbcHL _ => 27
  end.

Definition in_tbl (t : list Z) (i : Z) : bool := (0 <=? i) && (i <? Z.of_nat (length t)).
Definition in_range (lo hi i : Z) : bool := (lo <=? i) && (i <? hi).

(** Every decode-table index of the branch is inside its table, every
    [switch] selector hits one of its cases, every pair index is 0..3. *)
Definition in_bounds (b : Branch) : bool :=
  match b with
  | BLdRR d i => in_tbl LD_DST_H d && in_tbl LD_FULL_SRC_H i
  | BLdRN i => in_tbl IMM_REG_H i
  | BAlu a si => in_range 0 8 a && in_range 0 8 si && (if si <? 7 then in_tbl ALU_SRC_H si else true)
  | BInc i | BDec i => in_tbl INCDEC_REG_H i
  | BCb c i => in_range 0 7 c && in_tbl CB_REG_H i
  | BSllR i => in_tbl CB_REG_H i
  | BBit i bit | BRes i bit | BSet i bit => in_tbl CB_REG_H i && in_range 0 8 bit
  | BPair16 p _ | BAddHL p | BLdPairNN p | BAdcHL p | BSbcHL p => in_range 0 4 p
  | _ => true
  end.

Definition dispatch_ok (op : Z) : bool :=
  match decode_op op with
  | Some b =>
      in_bounds b &&
      Nat.eqb (length (filter (in_interval op) family_intervals)) 1 &&
      in_interval op (nth (branch_family b) family_intervals (0, 0))
  | None => false
  end.

(** Exhaustive checks, run once. *)
Definition c2_check (a b : Z) : bool :=
  let fa := rF (h_alu_add (set_r zero_state REG_A a) b) in
  let fs := rF (h_alu_sub (set_r zero_state REG_A a) b) in
  Bool.eqb (Z.testbit fa 4) (15 <? Z.land a 15 + Z.land b 15) &&
  Bool.eqb (Z.testbit fa 2) (add_overflows a b) &&
  Bool.eqb (Z.testbit fs 4) (Z.land a 15 <? Z.land b 15) &&
  Bool.eqb (Z.testbit fs 2) (sub_overflows a b).

Definition c5_check (t : Tables) (v : Z) : bool :=
  (at_ (h_sz53 t) v =? Z.lor (Z.land v 0xA8) (if v =? 0 then FLAG_Z else 0)) &&
  (at_ (h_parity t) v =? (if Nat.even (popcount8 v) then FLAG_P else 0)) &&
  (at_ (h_sz53p t) v =? Z.lor (at_ (h_sz53 t) v) (at_ (h_parity t) v)).

(** ** Generic lemmas *)
Lemma c5_check_true (t : Tables) (v : Z) :
  c5_check t v = true ->
  at_ (h_sz53 t) v = Z.lor (Z.land v 0xA8) (if v =? 0 then FLAG_Z else 0) /\
  at_ (h_parity t) v = (if Nat.even (popcount8 v) then FLAG_P else 0) /\
  at_ (h_sz53p t) v = Z.lor (at_ (h_sz53 t) v) (at_ (h_parity t) v).
Proof.
  unfold c5_check. intros H.
  apply andb_prop in H as [H H3]. apply andb_prop in H as [H1 H2].
  apply Z.eqb_eq in H1, H2, H3. auto.
Qed.

Lemma In_Zseq (lo : Z) (n : nat) (x : Z) :
  lo <= x < lo + Z.of_nat n -> In x (Zseq lo n).
Proof.
  revert lo. induction n as [|k IH]; intros lo Hx; simpl in *; [lia|].
  destruct (Z.eq_dec lo x) as [->|Hne]; [left; reflexivity|].
  right. apply IH. lia.
Qed.

Lemma Zrange_forallb (f : Z -> bool) (n : nat) :
  forallb f (Zrange n) = true -> forall x, 0 <= x < Z.of_nat n -> f x = true.
Proof.
  intros Hall x Hx. rewrite forallb_forall in Hall. apply Hall.
  apply In_Zseq. lia.
Qed.

Lemma c2_all : forallb (fun a => forallb (c2_check a) (Zrange 256)) (Zrange 256) = true.
Proof. vm_compute. reflexivity. Qed.

Lemma c5_all : forallb (c5_check (init_tables static_tables)) (Zrange 256) = true.
Proof. vm_compute. reflexivity. Qed.

Lemma dispatch_all : forallb dispatch_ok (Zrange 394) = true.
Proof. vm_compute. reflexivity. Qed.

(** The flags of add and sub depend on the state only through A. *)
Lemma alu_add_flags_A (s : Z80State) (b : Z) :
  rF (h_alu_add s b) = rF (h_alu_add (set_r zero_state REG_A (rA s)) b).
Proof. destruct s; reflexivity. Qed.

Lemma alu_sub_flags_A (s : Z80State) (b : Z) :
  rF (h_alu_sub s b) = rF (h_alu_sub (set_r zero_state REG_A (rA s)) b).
Proof. destruct s; reflexivity. Qed.

(** ** C2 *)

(** C2: for bytes [a] (the accumulator) and [b] (the operand), the
    carry-trick tables give: after add, half-carry (bit 4 of F) iff the
    low nibbles sum past 0x0F and overflow (bit 2) iff the signed sum
    leaves [-128, 127]; after sub, half-carry iff the low nibble of [a]
    is below that of [b] and overflow iff the signed difference leaves
    [-128, 127]. *)
Theorem alu_add_sub_halfcarry_overflow (s : Z80State) (a b : Z) :
  rA s = a -> 0 <= a < 256 -> 0 <= b < 256 ->
  Z.testbit (rF (h_alu_add s b)) 4 = (15 <? Z.land a 15 + Z.land b 15) /\
  Z.testbit (rF (h_alu_add s b)) 2 = add_overflows a b /\
  Z.testbit (rF (h_alu_sub s b)) 4 = (Z.land a 15 <? Z.land b 15) /\
  Z.testbit (rF (h_alu_sub s b)) 2 = sub_overflows a b.
Proof.
  intros HA Ha Hb.
  pose proof (Zrange_forallb _ 256 c2_all a Ha) as Hrow.
  pose proof (Zrange_forallb _ 256 Hrow b Hb) as Hc.
  unfold c2_check in Hc. rewrite !andb_true_iff in Hc.
  destruct Hc as [[[H1 H2] H3] H4]. apply Bool.eqb_prop in H1, H2, H3, H4.
  rewrite alu_add_flags_A, alu_sub_flags_A, HA. auto.
Qed.

Lemma alu_add_sub_halfcarry_overflow_witness :
  rA (mkState 0x0F 0 0 0 0 0 0 0 0) = 0x0F /\
  Z.testbit (rF (h_alu_add (mkState 0x0F 0 0 0 0 0 0 0 0) 0x71)) 4 = (15 <? Z.land 0x0F 15 + Z.land 0x71 15) /\
  Z.testbit (rF (h_alu_add (mkState 0x0F 0 0 0 0 0 0 0 0) 0x71)) 2 = add_overflows 0x0F 0x71 /\
  Z.testbit (rF (h_alu_sub (mkState 0x0F 0 0 0 0 0 0 0 0) 0x71)) 4 = (Z.land 0x0F 15 <? Z.land 0x71 15) /\
  Z.testbit (rF (h_alu_sub (mkState 0x0F 0 0 0 0 0 0 0 0) 0x71)) 2 = sub_overflows 0x0F 0x71.
Proof.
  split; [reflexivity|].
  apply (alu_add_sub_halfcarry_overflow (mkState 0x0F 0 0 0 0 0 0 0 0) 0x0F 0x71);
    [reflexivity | lia | lia].
Defined.

(** ** C3 *)

(** C3: every opcode in [0, OP_COUNT) is taken by the dispatcher's
    interval chain into one branch; every decode-table index, switch
    selector and pair index that branch computes is in bounds; and the
    opcode lies in exactly one of the family intervals, namely the one
    of the branch taken. *)
Theorem dispatch_total_in_bounds (op : Z) :
  0 <= op < OP_COUNT ->
  exists b, decode_op op = Some b /\ in_bounds b = true /\
    length (filter (in_interval op) family_intervals) = 1%nat /\
    in_interval op (nth (branch_family b) family_intervals (0, 0)) = true.
Proof.
  intros Hop.
  pose proof (Zrange_forallb _ 394 dispatch_all op Hop) as H.
  unfold dispatch_ok in H. destruct (decode_op op) as [b|]; [|discriminate].
  rewrite !andb_true_iff in H. destruct H as [[H1 H2] H3].
  exists b. repeat split; auto. apply Nat.eqb_eq. exact H2.
Qed.

Lemma dispatch_total_in_bounds_witness :
  0 <= 200 < OP_COUNT /\
  exists b, decode_op 200 = Some b /\ in_bounds b = true /\
    length (filter (in_interval 200) family_intervals) = 1%nat /\
    in_interval 200 (nth (branch_family b) family_intervals (0, 0)) = true.
Proof.
  split; [unfold OP_COUNT; lia|].
  apply dispatch_total_in_bounds. unfold OP_COUNT; lia.
Defined.

(** ** C5 *)

(** C5: after [init_tables] has run on the static arrays, for every byte
    [v]: SZ53[v] is [v & 0xA8] plus the zero flag iff [v = 0];
    Parity[v] is FLAG_P iff the popcount of [v] is even and 0 otherwise;
    SZ53P[v] is SZ53[v] | Parity[v]. *)
Theorem init_tables_spec (v : Z) :
  0 <= v < 256 ->
  at_ (h_sz53 (init_tables static_tables)) v =
    Z.lor (Z.land v 0xA8) (if v =? 0 then FLAG_Z else 0) /\
  at_ (h_parity (init_tables static_tables)) v =
    (if Nat.even (popcount8 v) then FLAG_P else 0) /\
  at_ (h_sz53p (init_tables static_tables)) v =
    Z.lor (at_ (h_sz53 (init_tables static_tables)) v) (at_ (h_parity (init_tables static_tables)) v).
Proof.
  intros Hv.
  apply c5_check_true.
  exact (Zrange_forallb (c5_check (init_tables static_tables)) 256 c5_all v Hv).
Qed.

Lemma init_tables_spec_witness :
  0 <= 0x96 < 256 /\
  at_ (h_sz53 (init_tables static_tables)) 0x96 =
    Z.lor (Z.land 0x96 0xA8) (if 0x96 =? 0 then FLAG_Z else 0) /\
  at_ (h_parity (init_tables static_tables)) 0x96 =
    (if Nat.even (popcount8 0x96) then FLAG_P else 0) /\
  at_ (h_sz53p (init_tables static_tables)) 0x96 =
    Z.lor (at_ (h_sz53 (init_tables static_tables)) 0x96)
          (at_ (h_parity (init_tables static_tables)) 0x96).
Proof. split; [lia | apply (init_tables_spec 0x96); lia]. Defined.

(** The executor reads exactly the tables [init_tables] builds. *)
Lemma tables_built : tables = init_tables static_tables.
Proof. vm_compute. reflexivity. Qed.

(** ** Dispatcher lemmas *)
Ltac zbool :=
  repeat match goal with
  | H : (_ <? _) = true |- _ => apply Z.ltb_lt in H
  | H : (_ <? _) = false |- _ => apply Z.ltb_ge in H
  | H : (_ <=? _) = true |- _ => apply Z.leb_le in H
  | H : (_ <=? _) = false |- _ => apply Z.leb_gt in H
  | H : (_ =? _) = true |- _ => apply Z.eqb_eq in H
  | H : (_ =? _) = false |- _ => apply Z.eqb_neq in H
  | H : (_ && _) = true |- _ => apply andb_prop in H as [? ?]
  | H : (_ && _) = false |- _ => apply andb_false_elim in H as [?|?]
  end.

Lemma decode_op_out_of_range (op : Z) : OP_COUNT <= op -> decode_op op = None.
Proof.
  unfold OP_COUNT. intros Hop. unfold decode_op.
  unfold OP_RLCA, OP_RRCA, OP_RLA, OP_RRA, OP_DAA, OP_CPL, OP_SCF, OP_CCF, OP_NEG,
    OP_NOP, OP_CB_START, OP_SLL_A, OP_SLL_B_START, OP_BIT_START, OP_RES_START,
    OP_SET_START, OP_16INC_START, OP_ADD_HL_START, OP_EX_DE_HL, OP_LD_SP_HL,
    OP_LD_RR_NN_START, OP_ADC_HL_START, OP_SBC_HL_START, OP_COUNT.
  repeat match goal with
  | |- context [if ?c then _ else _] =>
      let E := fresh "E" in destruct c eqn:E; cbv beta iota zeta; zbool; try lia
  end.
  reflexivity.
Qed.

Lemma exec_decoded (s : Z80State) (op imm : Z) (b : Branch) :
  decode_op op = Some b -> h_exec_instruction s op imm = exec_branch b s imm.
Proof. unfold h_exec_instruction. intros ->. reflexivity. Qed.

(** Branches that read the immediate operand. *)
Definition uses_imm (b : Branch) : bool :=
  match b with
  | BLdRN _ | BLdPairNN _ => true
  | BAlu _ si => negb (si <? 7)
  | _ => false
  end.

Lemma exec_branch_imm (b : Branch) (s : Z80State) (i1 i2 : Z) :
  uses_imm b = false -> exec_branch b s i1 = exec_branch b s i2.
Proof.
  destruct b; intros H; try discriminate H; try reflexivity.
  cbn [uses_imm] in H. apply negb_false_iff in H.
  cbv beta iota delta [exec_branch]. rewrite H. reflexivity.
Qed.

Definition imm_family (op : Z) : bool :=
  in_range 49 56 op || in_range 382 386 op || (in_range 56 120 op && ((op - 56) mod 8 =? 7)).

Definition imm_check (op : Z) : bool :=
  imm_family op ||
  match decode_op op with Some b => negb (uses_imm b) | None => true end.

Lemma imm_family_false (op : Z) :
  ~ (49 <= op <= 55) -> ~ (382 <= op <= 385) ->
  ~ (56 <= op < 120 /\ (op - 56) mod 8 = 7) -> imm_family op = false.
Proof.
  intros H1 H2 H3. unfold imm_family, in_range.
  apply orb_false_intro; [apply orb_false_intro|];
    apply Bool.not_true_iff_false; intros Hc; zbool; lia.
Qed.

Lemma imm_all : forallb imm_check (Zrange 394) = true.
Proof. vm_compute. reflexivity. Qed.

(** ** C10 *)

(** C10: an opcode at or beyond OP_COUNT passes no interval test of the
    dispatcher and leaves the state unchanged. *)
Theorem exec_out_of_range_noop (s : Z80State) (op imm : Z) :
  OP_COUNT <= op <= 65535 -> h_exec_instruction s op imm = s.
Proof.
  intros Hop. unfold h_exec_instruction.
  rewrite decode_op_out_of_range by lia. reflexivity.
Qed.

Lemma exec_out_of_range_noop_witness :
  OP_COUNT <= 500 <= 65535 /\
  h_exec_instruction (nth 5 h_test_vectors zero_state) 500 7 = nth 5 h_test_vectors zero_state.
Proof.
  split; [unfold OP_COUNT; lia|].
  apply exec_out_of_range_noop. unfold OP_COUNT; lia.
Defined.

(** ** C1 *)

(** C1 (as stated, refuted): the immediate is not ignored by all
    opcodes outside 49..55 and 382..385; opcode 63 (ADD A,n: ALU family,
    source slot 7) reads it. *)
Lemma imm_ignored_counterexample :
  ~ (forall s op i1 i2, ~ (49 <= op <= 55) -> ~ (382 <= op <= 385) ->
       h_exec_instruction s op i1 = h_exec_instruction s op i2).
Proof.
  intros H.
  specialize (H zero_state 63 0 1 ltac:(lia) ltac:(lia)).
  vm_compute in H. discriminate H.
Qed.

(** C1 (amended): apart from the 8-bit immediate loads (49..55), the
    16-bit immediate loads (382..385) and the eight ALU-immediate opcodes
    (56 <= op < 120 with (op - 56) mod 8 = 7), executing an opcode gives
    the same state whatever the immediate. *)
Theorem imm_ignored_elsewhere (s : Z80State) (op i1 i2 : Z) :
  0 <= op <= 65535 ->
  ~ (49 <= op <= 55) -> ~ (382 <= op <= 385) ->
  ~ (56 <= op < 120 /\ (op - 56) mod 8 = 7) ->
  h_exec_instruction s op i1 = h_exec_instruction s op i2.
Proof.
  intros Hop H1 H2 H3.
  destruct (Z.lt_ge_cases op OP_COUNT) as [Hlt | Hge].
  - pose proof (Zrange_forallb _ 394 imm_all op ltac:(unfold OP_COUNT in Hlt; lia)) as H.
    unfold imm_check in H. rewrite imm_family_false in H by assumption.
    rewrite orb_false_l in H.
    unfold h_exec_instruction. destruct (decode_op op) as [b|]; [|reflexivity].
    apply exec_branch_imm. apply negb_true_iff. exact H.
  - unfold h_exec_instruction. rewrite decode_op_out_of_range by lia. reflexivity.
Qed.

Lemma imm_ignored_elsewhere_witness :
  h_exec_instruction (nth 2 h_test_vectors zero_state) 62 0 =
  h_exec_instruction (nth 2 h_test_vectors zero_state) 62 0xBEEF.
Proof.
  apply imm_ignored_elsewhere; try lia.
  intros [_ H]. vm_compute in H. discriminate H.
Defined.

(** ** Fingerprint lemmas *)

(** The loop over the eight vectors stores every one of the 80 bytes. *)
Lemma fp_loop_image (g : nat -> Z80State) (fp0 : list Z) :
  length fp0 = FP_LEN ->
  fold_left (fun fp v => fp_store fp (v * FP_SIZE) (g v)) (seq 0 NUM_VECTORS) fp0 =
  concat (map (fun v => image (g v)) (seq 0 NUM_VECTORS)).
Proof.
  intros Hlen.
  do 80 (destruct fp0 as [|? fp0]; [discriminate Hlen|]).
  destruct fp0; [|discriminate Hlen].
  reflexivity.
Qed.

Lemma h_fingerprint_image (ops imms : list Z) (n : nat) (fp0 : list Z) :
  length fp0 = FP_LEN ->
  h_fingerprint ops imms n fp0 =
  concat (map (fun v => image (h_exec_seq (nth v h_test_vectors zero_state) ops imms n))
              (seq 0 NUM_VECTORS)).
Proof.
  intros Hlen. unfold h_fingerprint.
  exact (fp_loop_image (fun v => h_exec_seq (nth v h_test_vectors zero_state) ops imms n) fp0 Hlen).
Qed.

(** ** C4 *)

(** C4: [h_fingerprint] is a deterministic function of the sequence and
    the seed vectors: on two caller memories holding the same sequence
    (and any 80-byte output buffers) it writes the same digest, which is
    the concatenated register images of the eight seeds run through the
    sequence; the input arrays and the tables are left as they were. *)
Theorem fingerprint_deterministic (m1 m2 : Mem) (n : nat) :
  m_ops m1 = m_ops m2 -> m_imms m1 = m_imms m2 ->
  length (m_fp m1) = FP_LEN -> length (m_fp m2) = FP_LEN ->
  m_fp (fingerprint_call m1 n) = m_fp (fingerprint_call m2 n) /\
  m_fp (fingerprint_call m1 n) =
    concat (map (fun v => image (h_exec_seq (nth v h_test_vectors zero_state)
                                            (m_ops m1) (m_imms m1) n))
                (seq 0 NUM_VECTORS)) /\
  length (m_fp (fingerprint_call m1 n)) = FP_LEN /\
  m_ops (fingerprint_call m1 n) = m_ops m1 /\
  m_imms (fingerprint_call m1 n) = m_imms m1 /\
  m_tables (fingerprint_call m1 n) = m_tables m1.
Proof.
  intros Hops Himms Hl1 Hl2. unfold fingerprint_call.
  cbn [m_fp m_ops m_imms m_tables].
  rewrite (h_fingerprint_image _ _ _ _ Hl1), (h_fingerprint_image _ _ _ _ Hl2).
  rewrite <- Hops, <- Himms.
  split; [reflexivity|]. split; [reflexivity|].
  split; [|split; [reflexivity | split; reflexivity]].
  cbn [seq map concat app NUM_VECTORS image length]. reflexivity.
Qed.

Lemma fingerprint_deterministic_witness :
  let m1 := mkMem [49; 120] [5; 0] (repeat 0 80) tables in
  let m2 := mkMem [49; 120] [5; 0] (repeat 0xEE 80) static_tables in
  m_fp (fingerprint_call m1 2) = m_fp (fingerprint_call m2 2) /\
  m_fp (fingerprint_call m1 2) =
    concat (map (fun v => image (h_exec_seq (nth v h_test_vectors zero_state)
                                            (m_ops m1) (m_imms m1) 2))
                (seq 0 NUM_VECTORS)) /\
  length (m_fp (fingerprint_call m1 2)) = FP_LEN /\
  m_ops (fingerprint_call m1 2) = m_ops m1 /\
  m_imms (fingerprint_call m1 2) = m_imms m1 /\
  m_tables (fingerprint_call m1 2) = m_tables m1.
Proof.
  intros m1 m2.
  apply (fingerprint_deterministic m1 m2 2); reflexivity.
Defined.

(** ** C9 *)

(** C9: NOP leaves every state unchanged, so for seed 0 the digest
    segment of the sequence [NOP] is the raw image of the seed. *)
Theorem nop_identity (imm : Z) (fp0 : list Z) :
  length fp0 = FP_LEN ->
  (forall s i, h_exec_instruction s OP_NOP i = s) /\
  firstn FP_SIZE (h_fingerprint [OP_NOP] [imm] 1 fp0) = image (nth 0 h_test_vectors zero_state).
Proof.
  intros Hlen. split.
  - intros s i. reflexivity.
  - rewrite (h_fingerprint_image _ _ _ _ Hlen).
    cbn [seq map concat firstn FP_SIZE NUM_VECTORS image app]. reflexivity.
Qed.

Lemma nop_identity_witness :
  length (repeat 0x5A 80) = FP_LEN /\
  (forall s i, h_exec_instruction s OP_NOP i = s) /\
  firstn FP_SIZE (h_fingerprint [OP_NOP] [0] 1 (repeat 0x5A 80)) =
    image (nth 0 h_test_vectors zero_state).
Proof. split; [reflexivity | apply (nop_identity 0 (repeat 0x5A 80)); reflexivity]. Defined.

(** ** C6 *)
Definition c6_check (a v : Z) : bool :=
  let f := rF (h_alu_cp (set_r zero_state REG_A a) v) in
  Bool.eqb (Z.testbit f 3) (Z.testbit v 3) && Bool.eqb (Z.testbit f 5) (Z.testbit v 5) &&
  (if a =? v then Z.testbit f 6 && negb (Z.testbit f 0) && Z.testbit f 1 else true).

Lemma c6_all : forallb (fun a => forallb (c6_check a) (Zrange 256)) (Zrange 256) = true.
Proof. vm_compute. reflexivity. Qed.

Lemma alu_cp_flags_A (s : Z80State) (v : Z) :
  rF (h_alu_cp s v) = rF (h_alu_cp (set_r zero_state REG_A (rA s)) v).
Proof. destruct s; reflexivity. Qed.

(** C6: CP leaves A, B..L and sp unchanged; bits 3 and 5 of the new F
    are those of the operand; and when the operand equals A the new F has
    Z set, C clear and N set. *)
Theorem cp_flags_and_frame (s : Z80State) (v : Z) :
  wf_state s -> 0 <= v < 256 ->
  rA (h_alu_cp s v) = rA s /\ rB (h_alu_cp s v) = rB s /\ rC (h_alu_cp s v) = rC s /\
  rD (h_alu_cp s v) = rD s /\ rE (h_alu_cp s v) = rE s /\ rH (h_alu_cp s v) = rH s /\
  rL (h_alu_cp s v) = rL s /\ sp (h_alu_cp s v) = sp s /\
  Z.testbit (rF (h_alu_cp s v)) 3 = Z.testbit v 3 /\
  Z.testbit (rF (h_alu_cp s v)) 5 = Z.testbit v 5 /\
  (v = rA s ->
   Z.testbit (rF (h_alu_cp s v)) 6 = true /\ Z.testbit (rF (h_alu_cp s v)) 0 = false /\
   Z.testbit (rF (h_alu_cp s v)) 1 = true).
Proof.
  intros Hwf Hv.
  assert (HA : 0 <= rA s < 256) by (unfold wf_state in Hwf; tauto).
  pose proof (Zrange_forallb _ 256 c6_all (rA s) HA) as Hrow.
  pose proof (Zrange_forallb _ 256 Hrow v Hv) as Hc.
  unfold c6_check in Hc. rewrite <- alu_cp_flags_A in Hc.
  apply andb_prop in Hc as [Hc Heq]. apply andb_prop in Hc as [H3 H5].
  apply Bool.eqb_prop in H3, H5.
  do 8 (split; [destruct s; reflexivity|]).
  split; [exact H3|]. split; [exact H5|].
  intros Hva. subst v. rewrite Z.eqb_refl in Heq.
  apply andb_prop in Heq as [Heq H1]. apply andb_prop in Heq as [H6 H0].
  apply negb_true_iff in H0. auto.
Qed.

Lemma cp_flags_and_frame_witness :
  let s := nth 4 h_test_vectors zero_state in
  wf_state s /\
  (rA (h_alu_cp s 0x55) = rA s /\ rB (h_alu_cp s 0x55) = rB s /\ rC (h_alu_cp s 0x55) = rC s /\
   rD (h_alu_cp s 0x55) = rD s /\ rE (h_alu_cp s 0x55) = rE s /\ rH (h_alu_cp s 0x55) = rH s /\
   rL (h_alu_cp s 0x55) = rL s /\ sp (h_alu_cp s 0x55) = sp s /\
   Z.testbit (rF (h_alu_cp s 0x55)) 3 = Z.testbit 0x55 3 /\
   Z.testbit (rF (h_alu_cp s 0x55)) 5 = Z.testbit 0x55 5 /\
   (0x55 = rA s ->
    Z.testbit (rF (h_alu_cp s 0x55)) 6 = true /\ Z.testbit (rF (h_alu_cp s 0x55)) 0 = false /\
    Z.testbit (rF (h_alu_cp s 0x55)) 1 = true)).
Proof.
  intros s.
  assert (Hwf : wf_state s) by (vm_compute; repeat split; discriminate).
  split; [exact Hwf|]. apply (cp_flags_and_frame s 0x55 Hwf). lia.
Defined.

(** ** Register file lemmas *)
Ltac reg_cases i :=
  let H := fresh in
  assert (H : i = 0 \/ i = 1 \/ i = 2 \/ i = 3 \/ i = 4 \/ i = 5 \/ i = 6 \/ i = 7) by lia;
  destruct H as [->|[->|[->|[->|[->|[->|[->| ->]]]]]]].

Lemma rF_get (s : Z80State) : rF s = get_r s REG_F.
Proof. destruct s; reflexivity. Qed.

Lemma get_set_same (s : Z80State) (i v : Z) : 0 <= i < 8 -> get_r (set_r s i v) i = v.
Proof. intros Hi. destruct s; reg_cases i; reflexivity. Qed.

Lemma get_set_other (s : Z80State) (i j v : Z) :
  0 <= i < 8 -> 0 <= j < 8 -> j <> i -> get_r (set_r s i v) j = get_r s j.
Proof.
  intros Hi Hj Hne. destruct s; reg_cases i; reg_cases j;
    solve [reflexivity | exfalso; lia].
Qed.

Lemma sp_set_r (s : Z80State) (i v : Z) : sp (set_r s i v) = sp s.
Proof. destruct s; destruct i as [|[p|p|]|p]; try destruct p as [p|p|]; try destruct p as [p|p|];
  reflexivity. Qed.

Lemma wf_get_r (s : Z80State) (j : Z) : wf_state s -> 0 <= j < 8 -> 0 <= get_r s j < 256.
Proof. intros Hwf Hj. unfold wf_state in Hwf. reg_cases j; simpl; tauto. Qed.

Lemma sz53_bit0 (x : Z) : Z.testbit (sz53 x) 0 = false.
Proof.
  unfold sz53, at_. generalize (Z.to_nat x) as n. intros n.
  assert (Hall : forallb (fun z => negb (Z.testbit z 0)) (h_sz53 tables) = true)
    by (vm_compute; reflexivity).
  destruct (Nat.lt_ge_cases n (length (h_sz53 tables))) as [Hlt | Hge].
  - rewrite forallb_forall in Hall. apply negb_true_iff. apply Hall. apply nth_In. exact Hlt.
  - rewrite nth_overflow by exact Hge. reflexivity.
Qed.

Ltac bit0 :=
  unfold bsel_h, u8, FLAG_C, FLAG_N, FLAG_H, FLAG_V;
  repeat match goal with |- context [if ?c then _ else _] => destruct c end;
  repeat rewrite ?Z.lor_spec, ?Z.land_spec, ?sz53_bit0;
  cbn [Z.testbit Pos.testbit];
  rewrite ?andb_true_r, ?orb_false_r; try reflexivity.

(** ** INC / DEC lemmas, for a register other than F *)
Section IncDec.
Variable s : Z80State.
Variable reg : Z.
Hypothesis Hreg : 0 <= reg < 8.
Hypothesis HregF : reg <> REG_F.

Lemma inc_value : get_r (h_alu_inc s reg) reg = u8 (get_r s reg + 1).
Proof.
  unfold h_alu_inc. cbv zeta.
  rewrite get_set_other by (unfold REG_F in *; lia).
  rewrite get_set_same by lia. reflexivity.
Qed.

Lemma inc_other (j : Z) :
  0 <= j < 8 -> j <> REG_F -> j <> reg -> get_r (h_alu_inc s reg) j = get_r s j.
Proof.
  intros Hj HjF Hjr. unfold h_alu_inc. cbv zeta.
  rewrite !get_set_other by (unfold REG_F in *; lia). reflexivity.
Qed.

Lemma inc_sp : sp (h_alu_inc s reg) = sp s.
Proof. unfold h_alu_inc. cbv zeta. rewrite !sp_set_r. reflexivity. Qed.

Lemma inc_carry : Z.testbit (rF (h_alu_inc s reg)) 0 = Z.testbit (rF s) 0.
Proof.
  unfold h_alu_inc. cbv zeta.
  rewrite rF_get, get_set_same by (unfold REG_F; lia).
  rewrite get_set_other by (unfold REG_F in *; lia).
  rewrite (rF_get s). bit0.
Qed.

Lemma dec_value : get_r (h_alu_dec s reg) reg = u8 (get_r s reg - 1).
Proof.
  unfold h_alu_dec. cbv zeta.
  rewrite get_set_other by (unfold REG_F in *; lia).
  rewrite get_set_same by lia.
  rewrite get_set_other by (unfold REG_F in *; lia). reflexivity.
Qed.

Lemma dec_other (j : Z) :
  0 <= j < 8 -> j <> REG_F -> j <> reg -> get_r (h_alu_dec s reg) j = get_r s j.
Proof.
  intros Hj HjF Hjr. unfold h_alu_dec. cbv zeta.
  rewrite !get_set_other by (unfold REG_F in *; lia). reflexivity.
Qed.

Lemma dec_sp : sp (h_alu_dec s reg) = sp s.
Proof. unfold h_alu_dec. cbv zeta. rewrite !sp_set_r. reflexivity. Qed.

Lemma dec_carry : Z.testbit (rF (h_alu_dec s reg)) 0 = Z.testbit (rF s) 0.
Proof.
  unfold h_alu_dec. cbv zeta.
  rewrite rF_get, get_set_same by (unfold REG_F; lia).
  rewrite get_set_other by (unfold REG_F in *; lia).
  rewrite get_set_same by (unfold REG_F; lia).
  bit0.
Qed.
End IncDec.

Lemma byte_inc_dec (x : Z) : 0 <= x < 256 -> u8 (u8 (x + 1) - 1) = x.
Proof.
  intros Hx.
  assert (Hall : forallb (fun x => u8 (u8 (x + 1) - 1) =? x) (Zrange 256) = true)
    by (vm_compute; reflexivity).
  apply Z.eqb_eq. exact (Zrange_forallb _ 256 Hall x Hx).
Qed.

Lemma decode_incdec (k : Z) :
  0 <= k < 7 ->
  decode_op (OP_INC_START + k) = Some (BInc k) /\ decode_op (OP_DEC_START + k) = Some (BDec k) /\
  0 <= at_ INCDEC_REG_H k < 8 /\ at_ INCDEC_REG_H k <> REG_F.
Proof.
  intros Hk.
  assert (H : k = 0 \/ k = 1 \/ k = 2 \/ k = 3 \/ k = 4 \/ k = 5 \/ k = 6) by lia.
  destruct H as [->|[->|[->|[->|[->|[->| ->]]]]]];
    (split; [reflexivity|]); (split; [reflexivity|]);
    unfold at_, INCDEC_REG_H, REG_A, REG_B, REG_C, REG_D, REG_E, REG_H, REG_L, REG_F;
    simpl; lia.
Qed.

(** ** C7 *)

(** C7: INC on one of A, B, C, D, E, H, L (opcode OP_INC_START + k)
    followed by DEC on the same register (OP_DEC_START + k) restores the
    register, leaves the other registers but F and sp unchanged, and
    leaves the carry bit of F as it was; INC alone and DEC alone each
    preserve the carry bit. *)
Theorem inc_dec_roundtrip (s : Z80State) (k imm1 imm2 : Z) :
  wf_state s -> 0 <= k < 7 ->
  get_r (h_exec_instruction (h_exec_instruction s (OP_INC_START + k) imm1) (OP_DEC_START + k) imm2)
        (at_ INCDEC_REG_H k) = get_r s (at_ INCDEC_REG_H k) /\
  (forall j, 0 <= j < 8 -> j <> REG_F -> j <> at_ INCDEC_REG_H k ->
     get_r (h_exec_instruction (h_exec_instruction s (OP_INC_START + k) imm1)
                               (OP_DEC_START + k) imm2) j = get_r s j) /\
  sp (h_exec_instruction (h_exec_instruction s (OP_INC_START + k) imm1) (OP_DEC_START + k) imm2)
    = sp s /\
  Z.testbit (rF (h_exec_instruction (h_exec_instruction s (OP_INC_START + k) imm1)
                                    (OP_DEC_START + k) imm2)) 0 = Z.testbit (rF s) 0 /\
  Z.testbit (rF (h_exec_instruction s (OP_INC_START + k) imm1)) 0 = Z.testbit (rF s) 0 /\
  Z.testbit (rF (h_exec_instruction s (OP_DEC_START + k) imm2)) 0 = Z.testbit (rF s) 0.
Proof.
  intros Hwf Hk.
  destruct (decode_incdec k Hk) as (Hi & Hd & Hr & HrF).
  rewrite !(exec_decoded _ _ _ _ Hi), !(exec_decoded _ _ _ _ Hd).
  cbn [exec_branch].
  set (r := at_ INCDEC_REG_H k) in *.
  split; [|split; [|split; [|split; [|split]]]].
  - rewrite dec_value, inc_value by assumption.
    apply byte_inc_dec. apply wf_get_r; assumption.
  - intros j Hj HjF Hjr.
    rewrite dec_other, inc_other by assumption. reflexivity.
  - rewrite dec_sp, inc_sp. reflexivity.
  - rewrite dec_carry, inc_carry by assumption. reflexivity.
  - apply inc_carry; assumption.
  - apply dec_carry; assumption.
Qed.

Lemma inc_dec_roundtrip_witness :
  let s := nth 7 h_test_vectors zero_state in
  wf_state s /\
  get_r (h_exec_instruction (h_exec_instruction s (OP_INC_START + 0) 0) (OP_DEC_START + 0) 0)
        (at_ INCDEC_REG_H 0) = get_r s (at_ INCDEC_REG_H 0) /\
  (forall j, 0 <= j < 8 -> j <> REG_F -> j <> at_ INCDEC_REG_H 0 ->
     get_r (h_exec_instruction (h_exec_instruction s (OP_INC_START + 0) 0)
                               (OP_DEC_START + 0) 0) j = get_r s j) /\
  sp (h_exec_instruction (h_exec_instruction s (OP_INC_START + 0) 0) (OP_DEC_START + 0) 0)
    = sp s /\
  Z.testbit (rF (h_exec_instruction (h_exec_instruction s (OP_INC_START + 0) 0)
                                    (OP_DEC_START + 0) 0)) 0 = Z.testbit (rF s) 0 /\
  Z.testbit (rF (h_exec_instruction s (OP_INC_START + 0) 0)) 0 = Z.testbit (rF s) 0 /\
  Z.testbit (rF (h_exec_instruction s (OP_DEC_START + 0) 0)) 0 = Z.testbit (rF s) 0.
Proof.
  intros s.
  assert (Hwf : wf_state s) by (vm_compute; repeat split; discriminate).
  split; [exact Hwf|]. apply (inc_dec_roundtrip s 0 0 0 Hwf). lia.
Defined.

(** ** Register-pair lemmas *)

(** Registers making up pair [p] (BC, DE, HL; SP is not in the byte file). *)
Definition in_pair (p j : Z) : bool :=
  match p with
  | 0 => (j =? REG_B) || (j =? REG_C)
  | 1 => (j =? REG_D) || (j =? REG_E)
  | 2 => (j =? REG_H) || (j =? REG_L)
  | _ => false
  end.

Lemma word_split_join (w : Z) :
  0 <= w < 65536 -> Z.lor (Z.shiftl (u8 (Z.shiftr w 8)) 8) (u8 w) = w.
Proof.
  intros Hw.
  assert (Hall : forallb (fun w => Z.lor (Z.shiftl (u8 (Z.shiftr w 8)) 8) (u8 w) =? w)
                         (Zrange 65536) = true) by (vm_compute; reflexivity).
  apply Z.eqb_eq. exact (Zrange_forallb _ 65536 Hall w Hw).
Qed.

Lemma u16_mod (x : Z) : u16 x = x mod 65536.
Proof. unfold u16. change 65535 with (Z.ones 16). rewrite Z.land_ones by lia. reflexivity. Qed.

Lemma set_get_pair (s : Z80State) (p w : Z) :
  0 <= p < 4 -> 0 <= w < 65536 -> h_get_pair (h_set_pair s p w) p = w.
Proof.
  intros Hp Hw. destruct s.
  assert (H : p = 0 \/ p = 1 \/ p = 2 \/ p = 3) by lia.
  destruct H as [->|[->|[->| ->]]]; cbn; try apply word_split_join; auto.
Qed.

Lemma set_pair_other (s : Z80State) (p w j : Z) :
  0 <= p < 4 -> 0 <= j < 8 -> in_pair p j = false -> get_r (h_set_pair s p w) j = get_r s j.
Proof.
  intros Hp Hj Hin.
  assert (H : p = 0 \/ p = 1 \/ p = 2 \/ p = 3) by lia.
  destruct H as [->|[->|[->| ->]]]; cbn [in_pair h_set_pair] in *;
    try (destruct s; reflexivity);
    apply orb_false_iff in Hin as [H1 H2]; apply Z.eqb_neq in H1, H2;
    unfold REG_B, REG_C, REG_D, REG_E, REG_H, REG_L in *;
    rewrite !get_set_other by lia; reflexivity.
Qed.

Lemma set_pair_sp (s : Z80State) (p w : Z) :
  0 <= p < 3 -> sp (h_set_pair s p w) = sp s.
Proof.
  intros Hp. assert (H : p = 0 \/ p = 1 \/ p = 2) by lia.
  destruct H as [->|[->| ->]]; cbn [h_set_pair]; rewrite !sp_set_r; reflexivity.
Qed.

Lemma decode_pair16 (p : Z) :
  0 <= p < 4 ->
  decode_op (OP_16INC_START + p) = Some (BPair16 p false) /\
  decode_op (OP_16INC_START + 4 + p) = Some (BPair16 p true).
Proof.
  intros Hp. assert (H : p = 0 \/ p = 1 \/ p = 2 \/ p = 3) by lia.
  destruct H as [->|[->|[->| ->]]]; split; reflexivity.
Qed.

(** ** C8 *)

(** C8: for each pair (0 = BC, 1 = DE, 2 = HL, 3 = SP), the pair
    increment (OP_16INC_START + p) yields (value + 1) mod 65536 and the
    pair decrement (OP_16INC_START + 4 + p) yields (value - 1) mod 65536;
    neither changes F, any byte register outside the pair, or SP unless
    SP is the pair. *)
Theorem pair_incdec_wrap (s : Z80State) (p imm : Z) :
  0 <= p < 4 ->
  h_get_pair (h_exec_instruction s (OP_16INC_START + p) imm) p = (h_get_pair s p + 1) mod 65536 /\
  h_get_pair (h_exec_instruction s (OP_16INC_START + 4 + p) imm) p = (h_get_pair s p - 1) mod 65536 /\
  rF (h_exec_instruction s (OP_16INC_START + p) imm) = rF s /\
  rF (h_exec_instruction s (OP_16INC_START + 4 + p) imm) = rF s /\
  (forall j, 0 <= j < 8 -> in_pair p j = false ->
     get_r (h_exec_instruction s (OP_16INC_START + p) imm) j = get_r s j /\
     get_r (h_exec_instruction s (OP_16INC_START + 4 + p) imm) j = get_r s j) /\
  (p <> 3 ->
     sp (h_exec_instruction s (OP_16INC_START + p) imm) = sp s /\
     sp (h_exec_instruction s (OP_16INC_START + 4 + p) imm) = sp s).
Proof.
  intros Hp. destruct (decode_pair16 p Hp) as [Hi Hd].
  rewrite !(exec_decoded _ _ _ _ Hi), !(exec_decoded _ _ _ _ Hd).
  cbn [exec_branch].
  assert (Hin1 : in_pair p REG_F = false).
  { assert (H : p = 0 \/ p = 1 \/ p = 2 \/ p = 3) by lia.
    destruct H as [->|[->|[->| ->]]]; reflexivity. }
  split; [|split; [|split; [|split; [|split]]]].
  - rewrite set_get_pair, u16_mod by (rewrite ?u16_mod; auto using Z.mod_pos_bound with zarith).
    reflexivity.
  - rewrite set_get_pair, u16_mod by (rewrite ?u16_mod; auto using Z.mod_pos_bound with zarith).
    reflexivity.
  - rewrite !rF_get. apply set_pair_other; unfold REG_F; auto; lia.
  - rewrite !rF_get. apply set_pair_other; unfold REG_F; auto; lia.
  - intros j Hj Hin. split; apply set_pair_other; assumption.
  - intros Hp3. split; apply set_pair_sp; lia.
Qed.

Lemma pair_incdec_wrap_witness :
  let s := nth 1 h_test_vectors zero_state in
  0 <= 0 < 4 /\
  h_get_pair (h_exec_instruction s (OP_16INC_START + 0) 0) 0 = (h_get_pair s 0 + 1) mod 65536 /\
  h_get_pair (h_exec_instruction s (OP_16INC_START + 4 + 0) 0) 0 = (h_get_pair s 0 - 1) mod 65536 /\
  rF (h_exec_instruction s (OP_16INC_START + 0) 0) = rF s /\
  rF (h_exec_instruction s (OP_16INC_START + 4 + 0) 0) = rF s /\
  (forall j, 0 <= j < 8 -> in_pair 0 j = false ->
     get_r (h_exec_instruction s (OP_16INC_START + 0) 0) j = get_r s j /\
     get_r (h_exec_instruction s (OP_16INC_START + 4 + 0) 0) j = get_r s j) /\
  (0 <> 3 ->
     sp (h_exec_instruction s (OP_16INC_START + 0) 0) = sp s /\
     sp (h_exec_instruction s (OP_16INC_START + 4 + 0) 0) = sp s).
Proof. intros s. split; [lia|]. apply (pair_incdec_wrap s 0 0). lia. Defined.

(** The boundary values: BC = 0xFFFF increments to 0x0000 and BC = 0x0000
    decrements to 0xFFFF. *)
Example pair_wrap_boundaries :
  h_get_pair (h_exec_instruction (nth 1 h_test_vectors zero_state) OP_16INC_START 0) 0 = 0 /\
  h_get_pair (h_exec_instruction zero_state (OP_16INC_START + 4) 0) 0 = 0xFFFF.
Proof. split; reflexivity. Qed.

(** * Further properties of the instruction set *)

(** ** Comparator *)

(** [h_states_equal] with its mask applied: the state with the dead
    flag bits cleared. *)
Definition mask_F (s : Z80State) (dead_flags : Z) : Z80State :=
  set_r s REG_F (Z.land (rF s) (Z.lnot dead_flags)).

Lemma land_lnot_widen (x m1 m2 : Z) :
  Z.land m1 (Z.lnot m2) = 0 ->
  Z.land x (Z.lnot m2) = Z.land (Z.land x (Z.lnot m1)) (Z.lnot m2).
Proof.
  intros H. apply Z.bits_inj'. intros n Hn.
  assert (Hb := f_equal (fun z => Z.testbit z n) H). cbn beta in Hb.
  rewrite Z.land_spec, Z.lnot_spec, Z.bits_0 in Hb by lia.
  rewrite !Z.land_spec, !Z.lnot_spec by lia.
  destruct (Z.testbit x n), (Z.testbit m1 n), (Z.testbit m2 n); simpl in *; congruence.
Qed.

(** X1: the state comparator compares all registers and SP exactly and F only outside the dead-flag mask: it returns true iff the two states agree after clearing the masked bits of F; with mask 0 it is exact equality of states. *)
Theorem states_equal_masked (a b : Z80State) (dead_flags : Z) :
  (h_states_equal a b dead_flags = true <-> mask_F a dead_flags = mask_F b dead_flags) /\
  (h_states_equal a b 0 = true <-> a = b).
Proof.
  split.
  - destruct a as [a1 a2 a3 a4 a5 a6 a7 a8 a9], b as [b1 b2 b3 b4 b5 b6 b7 b8 b9].
    unfold h_states_equal, mask_F. cbn.
    rewrite !andb_true_iff, !Z.eqb_eq. split.
    + intros [[[[[[[[-> ->] ->] ->] ->] ->] ->] ->] ->]. reflexivity.
    + intros H. injection H. intros. subst. tauto.
  - destruct a as [a1 a2 a3 a4 a5 a6 a7 a8 a9], b as [b1 b2 b3 b4 b5 b6 b7 b8 b9].
    unfold h_states_equal. cbn [rA rF rB rC rD rE rH rL sp Z.lnot].
    rewrite !Z.land_m1_r, !andb_true_iff, !Z.eqb_eq. split.
    + intros [[[[[[[[-> ->] ->] ->] ->] ->] ->] ->] ->]. reflexivity.
    + intros H. injection H. intros. subst. tauto.
Qed.

(** X2: for a fixed mask the comparator is reflexive, symmetric and transitive, and a comparison that succeeds with mask m1 still succeeds with any mask m2 containing every bit of m1. *)
Theorem states_equal_equiv_mono (a b c : Z80State) (m1 m2 : Z) :
  h_states_equal a a m1 = true /\
  h_states_equal a b m1 = h_states_equal b a m1 /\
  (h_states_equal a b m1 = true -> h_states_equal b c m1 = true ->
   h_states_equal a c m1 = true) /\
  (Z.land m1 (Z.lnot m2) = 0 -> h_states_equal a b m1 = true ->
   h_states_equal a b m2 = true).
Proof.
  destruct a as [a1 a2 a3 a4 a5 a6 a7 a8 a9], b as [b1 b2 b3 b4 b5 b6 b7 b8 b9],
    c as [c1 c2 c3 c4 c5 c6 c7 c8 c9].
  unfold h_states_equal. cbn [rA rF rB rC rD rE rH rL sp].
  split; [|split; [|split]].
  - rewrite !Z.eqb_refl. reflexivity.
  - rewrite (Z.eqb_sym a1), (Z.eqb_sym (Z.land a2 _)), (Z.eqb_sym a3), (Z.eqb_sym a4),
      (Z.eqb_sym a5), (Z.eqb_sym a6), (Z.eqb_sym a7), (Z.eqb_sym a8), (Z.eqb_sym a9).
    reflexivity.
  - rewrite !andb_true_iff, !Z.eqb_eq.
    intros [[[[[[[[H1 H2] H3] H4] H5] H6] H7] H8] H9]
           [[[[[[[[G1 G2] G3] G4] G5] G6] G7] G8] G9].
    repeat split; congruence.
  - intros Hm. rewrite !andb_true_iff, !Z.eqb_eq.
    intros [[[[[[[[H1 H2] H3] H4] H5] H6] H7] H8] H9].
    rewrite (land_lnot_widen a2 m1 m2 Hm), (land_lnot_widen b2 m1 m2 Hm), H2.
    repeat split; assumption.
Qed.

Lemma states_equal_equiv_mono_witness :
  Z.land 1 (Z.lnot 3) = 0 /\
  h_states_equal zero_state (set_r zero_state REG_F 1) 1 = true /\
  h_states_equal zero_state (set_r zero_state REG_F 1) 3 = true.
Proof.
  split; [reflexivity|].
  destruct (states_equal_equiv_mono zero_state (set_r zero_state REG_F 1) zero_state 1 3)
    as [_ [_ [_ Hm]]].
  assert (H1 : h_states_equal zero_state (set_r zero_state REG_F 1) 1 = true) by reflexivity.
  split; [exact H1|]. apply Hm; [reflexivity | exact H1].
Defined.

(** ** Sequences *)
Lemma fold_seq_shift {A : Type} (f : A -> nat -> A) (a : A) (k n : nat) :
  fold_left f (seq (S k) n) a = fold_left (fun x i => f x (S i)) (seq k n) a.
Proof.
  revert k a. induction n as [|n IH]; intros k a; [reflexivity|].
  cbn [seq fold_left]. rewrite IH. reflexivity.
Qed.

Lemma exec_seq_cons (s : Z80State) (o i : Z) (ops imms : list Z) (n : nat) :
  h_exec_seq s (o :: ops) (i :: imms) (S n) =
  h_exec_seq (h_exec_instruction s o i) ops imms n.
Proof.
  unfold h_exec_seq. cbn [seq fold_left]. rewrite fold_seq_shift. reflexivity.
Qed.

(** X3: executing a concatenation of two programs (with one immediate per opcode in the first) equals executing the first program and then the second one from the resulting state. *)
Theorem exec_seq_app (s : Z80State) (ops1 imms1 ops2 imms2 : list Z) (n2 : nat) :
  length imms1 = length ops1 ->
  h_exec_seq s (ops1 ++ ops2) (imms1 ++ imms2) (length ops1 + n2) =
  h_exec_seq (h_exec_seq s ops1 imms1 (length ops1)) ops2 imms2 n2.
Proof.
  revert s imms1. induction ops1 as [|o ops1 IH]; intros s imms1 Hlen.
  - destruct imms1; [reflexivity | discriminate Hlen].
  - destruct imms1 as [|i imms1]; [discriminate Hlen|].
    cbn [length app Nat.add]. rewrite !exec_seq_cons. apply IH.
    cbn [length] in Hlen. lia.
Qed.

Lemma exec_seq_app_witness :
  length [0] = length [120] /\
  h_exec_seq zero_state ([120] ++ [49]) ([0] ++ [7]) (length [120] + 1) =
  h_exec_seq (h_exec_seq zero_state [120] [0] (length [120])) [49] [7] 1.
Proof. split; [reflexivity|]. apply exec_seq_app. reflexivity. Defined.

(** ** EX DE,HL *)
(** X4: EX DE,HL exchanges the DE and HL pairs, leaves A, F, B, C and SP unchanged, and executing it twice restores the original state, whatever the immediates. *)
Theorem ex_de_hl_swap (s : Z80State) (imm1 imm2 : Z) :
  let s1 := h_exec_instruction s OP_EX_DE_HL imm1 in
  h_get_pair s1 1 = h_get_pair s 2 /\ h_get_pair s1 2 = h_get_pair s 1 /\
  rA s1 = rA s /\ rF s1 = rF s /\ rB s1 = rB s /\ rC s1 = rC s /\ sp s1 = sp s /\
  h_exec_instruction s1 OP_EX_DE_HL imm2 = s.
Proof. destruct s. repeat split; reflexivity. Qed.

Lemma In_Zseq_inv (lo : Z) (n : nat) (x : Z) :
  In x (Zseq lo n) -> lo <= x < lo + Z.of_nat n.
Proof.
  revert lo. induction n as [|k IH]; intros lo H; cbn [Zseq In] in H; [contradiction|].
  destruct H as [<-|H]; [lia|]. apply IH in H. lia.
Qed.

Lemma forall_bytes2 (g : Z -> Z -> bool) :
  forallb (fun a => forallb (g a) (Zrange 256)) (Zrange 256) = true ->
  forall a b, 0 <= a < 256 -> 0 <= b < 256 -> g a b = true.
Proof.
  intros H a b Ha Hb.
  apply (Zrange_forallb (g a) 256); [|lia].
  exact (Zrange_forallb (fun a => forallb (g a) (Zrange 256)) 256 H a Ha).
Qed.

Ltac unpack H :=
  repeat match type of H with
  | (_ && _) = true => let H1 := fresh H in apply andb_prop in H as [H1 H]; unpack H1
  | (_ =? _) = true => apply Z.eqb_eq in H
  | Bool.eqb _ _ = true => apply Bool.eqb_prop in H
  | negb _ = true => apply negb_true_iff in H
  end.

(** ** Loads *)
Definition gp_regs : list Z := [REG_A; REG_B; REG_C; REG_D; REG_E; REG_H; REG_L].

(** Opcode [op] of the register-to-register block selects [dst <- src]. *)
Definition ld_sel (dst src op : Z) : bool :=
  (at_ LD_DST_H (op / 7) =? dst) && (at_ LD_FULL_SRC_H op =? src).

Lemma ld_cover :
  forallb (fun d => forallb (fun r => existsb (ld_sel d r) (Zrange 49)) gp_regs) gp_regs = true.
Proof. vm_compute. reflexivity. Qed.

Lemma ld_inj :
  forallb (fun op => forallb (fun op' =>
    negb (ld_sel (at_ LD_DST_H (op / 7)) (at_ LD_FULL_SRC_H op) op') || (op =? op'))
    (Zrange 49)) (Zrange 49) = true.
Proof. vm_compute. reflexivity. Qed.

Lemma decode_ld_rr (op : Z) : 0 <= op < 49 -> decode_op op = Some (BLdRR (op / 7) op).
Proof.
  intros Hop. unfold decode_op. replace (op <? 49) with true by (symmetry; apply Z.ltb_lt; lia).
  reflexivity.
Qed.

Lemma decode_ld_rn (k : Z) : 0 <= k < 7 -> decode_op (OP_LD_RN_START + k) = Some (BLdRN k).
Proof.
  intros Hk. assert (H : k = 0 \/ k = 1 \/ k = 2 \/ k = 3 \/ k = 4 \/ k = 5 \/ k = 6) by lia.
  destruct H as [->|[->|[->|[->|[->|[->| ->]]]]]]; reflexivity.
Qed.

Lemma u8_mod (x : Z) : u8 x = x mod 256.
Proof. unfold u8. change 255 with (Z.ones 8). rewrite Z.land_ones by lia. reflexivity. Qed.

(** X5: for every destination and source among A, B, C, D, E, H, L there is exactly one opcode below 49 that copies the source into the destination and changes nothing else; and each opcode 49..55 stores the low byte of the immediate into the k-th register of A, B, C, D, E, H, L. *)
Theorem ld8_family (dst src : Z) :
  In dst gp_regs -> In src gp_regs ->
  exists op, 0 <= op < 49 /\
    (forall s imm, h_exec_instruction s op imm = set_r s dst (get_r s src)) /\
    (forall op', 0 <= op' < 49 -> at_ LD_DST_H (op' / 7) = dst ->
       at_ LD_FULL_SRC_H op' = src -> op' = op) /\
    (forall k s imm, 0 <= k < 7 -> at_ IMM_REG_H k = at_ gp_regs k /\
       h_exec_instruction s (OP_LD_RN_START + k) imm = set_r s (at_ gp_regs k) (imm mod 256)).
Proof.
  intros Hd Hs.
  pose proof ld_cover as H0. rewrite forallb_forall in H0. pose proof (H0 dst Hd) as H1.
  rewrite forallb_forall in H1. specialize (H1 src Hs).
  apply existsb_exists in H1 as [op [Hin Hsel]].
  apply In_Zseq_inv in Hin. cbn [Z.of_nat Pos.of_succ_nat Pos.succ] in Hin.
  exists op. split; [lia|]. split; [|split].
  - intros s imm. rewrite (exec_decoded s op imm _ (decode_ld_rr op ltac:(lia))).
    unfold ld_sel in Hsel. apply andb_prop in Hsel as [H1 H2]. apply Z.eqb_eq in H1, H2.
    cbn [exec_branch]. rewrite H1, H2. reflexivity.
  - intros op' Hop' Hd' Hs'.
    assert (Hall := Zrange_forallb _ 49 ld_inj op' ltac:(lia)). cbv beta in Hall.
    assert (Hop : 0 <= op < Z.of_nat 49) by lia.
    rewrite forallb_forall in Hall. specialize (Hall op (In_Zseq 0 49 op Hop)).
    rewrite Hd', Hs', Hsel in Hall. apply Z.eqb_eq in Hall. exact Hall.
  - intros k s imm Hk. split.
    + assert (H : k = 0 \/ k = 1 \/ k = 2 \/ k = 3 \/ k = 4 \/ k = 5 \/ k = 6) by lia.
      destruct H as [->|[->|[->|[->|[->|[->| ->]]]]]]; reflexivity.
    + rewrite (exec_decoded s _ imm _ (decode_ld_rn k Hk)). cbn [exec_branch].
      rewrite u8_mod.
      assert (H : k = 0 \/ k = 1 \/ k = 2 \/ k = 3 \/ k = 4 \/ k = 5 \/ k = 6) by lia.
      destruct H as [->|[->|[->|[->|[->|[->| ->]]]]]]; reflexivity.
Qed.

Lemma ld8_family_witness :
  In REG_B gp_regs /\ In REG_H gp_regs /\
  exists op, 0 <= op < 49 /\
    (forall s imm, h_exec_instruction s op imm = set_r s REG_B (get_r s REG_H)) /\
    (forall op', 0 <= op' < 49 -> at_ LD_DST_H (op' / 7) = REG_B ->
       at_ LD_FULL_SRC_H op' = REG_H -> op' = op) /\
    (forall k s imm, 0 <= k < 7 -> at_ IMM_REG_H k = at_ gp_regs k /\
       h_exec_instruction s (OP_LD_RN_START + k) imm = set_r s (at_ gp_regs k) (imm mod 256)).
Proof.
  assert (Hb : In REG_B gp_regs) by (right; left; reflexivity).
  assert (Hh : In REG_H gp_regs) by (do 5 right; left; reflexivity).
  split; [exact Hb|]. split; [exact Hh|]. exact (ld8_family REG_B REG_H Hb Hh).
Defined.

Lemma decode_ld_pair_nn (p : Z) :
  0 <= p < 4 -> decode_op (OP_LD_RR_NN_START + p) = Some (BLdPairNN p).
Proof.
  intros Hp. assert (H : p = 0 \/ p = 1 \/ p = 2 \/ p = 3) by lia.
  destruct H as [->|[->|[->| ->]]]; reflexivity.
Qed.

(** X6: LD rr,nn sets the selected pair to the 16-bit immediate and keeps F, the other registers and (unless the pair is SP) SP; LD SP,HL copies HL into SP and changes no 8-bit register. *)
Theorem ld16_family (s : Z80State) (p imm : Z) :
  0 <= p < 4 -> 0 <= imm < 65536 ->
  let s1 := h_exec_instruction s (OP_LD_RR_NN_START + p) imm in
  let s2 := h_exec_instruction s OP_LD_SP_HL imm in
  h_get_pair s1 p = imm /\ rF s1 = rF s /\
  (forall j, 0 <= j < 8 -> in_pair p j = false -> get_r s1 j = get_r s j) /\
  (p <> 3 -> sp s1 = sp s) /\
  sp s2 = h_get_pair s 2 /\ (forall j, get_r s2 j = get_r s j).
Proof.
  intros Hp Him s1 s2. subst s1 s2.
  rewrite (exec_decoded s _ imm _ (decode_ld_pair_nn p Hp)). cbn [exec_branch].
  assert (Hin1 : in_pair p REG_F = false).
  { assert (H : p = 0 \/ p = 1 \/ p = 2 \/ p = 3) by lia.
    destruct H as [->|[->|[->| ->]]]; reflexivity. }
  split; [|split; [|split; [|split; [|split]]]].
  - apply set_get_pair; assumption.
  - rewrite !rF_get. apply set_pair_other; unfold REG_F; auto; lia.
  - intros j Hj Hin. apply set_pair_other; assumption.
  - intros Hp3. apply set_pair_sp. lia.
  - destruct s; reflexivity.
  - intros j. destruct s; reflexivity.
Qed.

Lemma ld16_family_witness :
  0 <= 1 < 4 /\ 0 <= 0xBEEF < 65536 /\
  let s1 := h_exec_instruction zero_state (OP_LD_RR_NN_START + 1) 0xBEEF in
  let s2 := h_exec_instruction zero_state OP_LD_SP_HL 0xBEEF in
  h_get_pair s1 1 = 0xBEEF /\ rF s1 = rF zero_state /\
  (forall j, 0 <= j < 8 -> in_pair 1 j = false -> get_r s1 j = get_r zero_state j) /\
  (1 <> 3 -> sp s1 = sp zero_state) /\
  sp s2 = h_get_pair zero_state 2 /\ (forall j, get_r s2 j = get_r zero_state j).
Proof. split; [lia|]. split; [lia|]. apply ld16_family; lia. Defined.

(** ** Accumulator and flag opcodes *)

(** The state with only A and F taken from [a] and [f]. *)
Definition af_state (a f : Z) : Z80State := mkState a f 0 0 0 0 0 0 0.

(** Opcodes that read and write nothing but A and F. *)
Definition af_ops : list Z :=
  [OP_RLCA; OP_RRCA; OP_RLA; OP_RRA; OP_DAA; OP_CPL; OP_SCF; OP_CCF; OP_NEG].

Lemma af_transfer (op : Z) (s : Z80State) (imm : Z) :
  In op af_ops ->
  h_exec_instruction s op imm =
  let t := h_exec_instruction (af_state (rA s) (rF s)) op 0 in
  mkState (rA t) (rF t) (rB s) (rC s) (rD s) (rE s) (rH s) (rL s) (sp s).
Proof.
  intros H. cbn [af_ops In] in H.
  destruct s as [a f b c d e h l p];
    repeat destruct H as [<-|H]; try contradiction; try reflexivity.
  change (h_exec_instruction ?s OP_DAA ?i) with (h_exec_daa s).
  unfold h_exec_daa. cbn [rA rF af_state].
  destruct (nz (Z.land f FLAG_N)); reflexivity.
Qed.

Lemma af_read (op : Z) (s : Z80State) (imm : Z) :
  In op af_ops ->
  rA (h_exec_instruction s op imm) = rA (h_exec_instruction (af_state (rA s) (rF s)) op 0) /\
  rF (h_exec_instruction s op imm) = rF (h_exec_instruction (af_state (rA s) (rF s)) op 0).
Proof. intros H. rewrite (af_transfer op s imm H). split; reflexivity. Qed.

(** [t] differs from [s] at most in A and F. *)
Definition only_AF (s t : Z80State) : Prop :=
  t = mkState (rA t) (rF t) (rB s) (rC s) (rD s) (rE s) (rH s) (rL s) (sp s).

Lemma af_frame (op : Z) (s : Z80State) (imm : Z) :
  In op af_ops -> only_AF s (h_exec_instruction s op imm).
Proof. intros H. unfold only_AF. rewrite (af_transfer op s imm H). reflexivity. Qed.

(** Flag bits S, Z and P/V carried over from [f] to [g]. *)
Definition keeps_SZP (f g : Z) : bool :=
  Bool.eqb (Z.testbit g 2) (Z.testbit f 2) && Bool.eqb (Z.testbit g 6) (Z.testbit f 6) &&
  Bool.eqb (Z.testbit g 7) (Z.testbit f 7).

Definition rot_check (a f : Z) : bool :=
  let c := Z.b2z (Z.testbit f 0) in
  let r1 := rF (h_exec_instruction (af_state a f) OP_RLCA 0) in
  let r2 := rF (h_exec_instruction (af_state a f) OP_RRCA 0) in
  let r3 := rF (h_exec_instruction (af_state a f) OP_RLA 0) in
  let r4 := rF (h_exec_instruction (af_state a f) OP_RRA 0) in
  (rA (h_exec_instruction (af_state a f) OP_RLCA 0) =? (2 * a) mod 256 + a / 128) &&
  Bool.eqb (Z.testbit r1 0) (128 <=? a) &&
  (rA (h_exec_instruction (af_state a f) OP_RRCA 0) =? a / 2 + 128 * (a mod 2)) &&
  Bool.eqb (Z.testbit r2 0) (Z.odd a) &&
  (rA (h_exec_instruction (af_state a f) OP_RLA 0) =? (2 * a) mod 256 + c) &&
  Bool.eqb (Z.testbit r3 0) (128 <=? a) &&
  (rA (h_exec_instruction (af_state a f) OP_RRA 0) =? a / 2 + 128 * c) &&
  Bool.eqb (Z.testbit r4 0) (Z.odd a) &&
  forallb (fun g => negb (Z.testbit g 1) && negb (Z.testbit g 4) && keeps_SZP f g)
    [r1; r2; r3; r4].

Lemma rot_all : forallb (fun a => forallb (rot_check a) (Zrange 256)) (Zrange 256) = true.
Proof. vm_compute. reflexivity. Qed.

Definition rot_flags (f : Z) (t : Z80State) : Prop :=
  Z.testbit (rF t) 1 = false /\ Z.testbit (rF t) 4 = false /\
  Z.testbit (rF t) 2 = Z.testbit f 2 /\ Z.testbit (rF t) 6 = Z.testbit f 6 /\
  Z.testbit (rF t) 7 = Z.testbit f 7.

(** X7: on a well-formed state RLCA, RRCA, RLA and RRA rotate A (through carry for RLA and RRA) with the shifted-out bit as the new carry, clear N and H, keep P/V, Z and S, and modify only A and F. *)
Theorem rotate_accumulator (s : Z80State) (imm : Z) :
  wf_state s ->
  let a := rA s in let c := Z.b2z (Z.testbit (rF s) 0) in
  let s1 := h_exec_instruction s OP_RLCA imm in
  let s2 := h_exec_instruction s OP_RRCA imm in
  let s3 := h_exec_instruction s OP_RLA imm in
  let s4 := h_exec_instruction s OP_RRA imm in
  rA s1 = (2 * a) mod 256 + a / 128 /\ Z.testbit (rF s1) 0 = (128 <=? a) /\
  rA s2 = a / 2 + 128 * (a mod 2) /\ Z.testbit (rF s2) 0 = Z.odd a /\
  rA s3 = (2 * a) mod 256 + c /\ Z.testbit (rF s3) 0 = (128 <=? a) /\
  rA s4 = a / 2 + 128 * c /\ Z.testbit (rF s4) 0 = Z.odd a /\
  rot_flags (rF s) s1 /\ rot_flags (rF s) s2 /\ rot_flags (rF s) s3 /\ rot_flags (rF s) s4 /\
  only_AF s s1 /\ only_AF s s2 /\ only_AF s s3 /\ only_AF s s4.
Proof.
  intros Hwf a c s1 s2 s3 s4.
  assert (Ha : 0 <= rA s < 256) by (unfold wf_state in Hwf; tauto).
  assert (Hf : 0 <= rF s < 256) by (unfold wf_state in Hwf; tauto).
  pose proof (forall_bytes2 rot_check rot_all (rA s) (rF s) Ha Hf) as H.
  cbv beta zeta delta [rot_check forallb keeps_SZP] in H. unpack H.
  destruct (af_read OP_RLCA s imm ltac:(cbn; tauto)) as [A1 F1].
  destruct (af_read OP_RRCA s imm ltac:(cbn; tauto)) as [A2 F2].
  destruct (af_read OP_RLA s imm ltac:(cbn; tauto)) as [A3 F3].
  destruct (af_read OP_RRA s imm ltac:(cbn; tauto)) as [A4 F4].
  unfold rot_flags. subst a c s1 s2 s3 s4.
  rewrite A1, A2, A3, A4, F1, F2, F3, F4.
  repeat split; try assumption; try tauto; apply af_frame; cbn; tauto.
Qed.


Definition rot_rt_check (a f : Z) : bool :=
  let u1 := h_exec_instruction (af_state a f) OP_RLCA 0 in
  let u2 := h_exec_instruction (af_state a f) OP_RRCA 0 in
  let u3 := h_exec_instruction (af_state a f) OP_RLA 0 in
  let u4 := h_exec_instruction (af_state a f) OP_RRA 0 in
  let v1 := h_exec_instruction (af_state (rA u1) (rF u1)) OP_RRCA 0 in
  let v2 := h_exec_instruction (af_state (rA u2) (rF u2)) OP_RLCA 0 in
  let v3 := h_exec_instruction (af_state (rA u3) (rF u3)) OP_RRA 0 in
  let v4 := h_exec_instruction (af_state (rA u4) (rF u4)) OP_RLA 0 in
  (rA v1 =? a) && (rA v2 =? a) &&
  (rA v3 =? a) && Bool.eqb (Z.testbit (rF v3) 0) (Z.testbit f 0) &&
  (rA v4 =? a) && Bool.eqb (Z.testbit (rF v4) 0) (Z.testbit f 0).

Lemma rot_rt_all : forallb (fun a => forallb (rot_rt_check a) (Zrange 256)) (Zrange 256) = true.
Proof. vm_compute. reflexivity. Qed.

Lemma af_read2 (op1 op2 : Z) (s : Z80State) (i1 i2 : Z) :
  In op1 af_ops -> In op2 af_ops ->
  let u := h_exec_instruction (af_state (rA s) (rF s)) op1 0 in
  let v := h_exec_instruction (af_state (rA u) (rF u)) op2 0 in
  rA (h_exec_instruction (h_exec_instruction s op1 i1) op2 i2) = rA v /\
  rF (h_exec_instruction (h_exec_instruction s op1 i1) op2 i2) = rF v.
Proof.
  intros H1 H2 u v.
  destruct (af_read op2 (h_exec_instruction s op1 i1) i2 H2) as [-> ->].
  destruct (af_read op1 s i1 H1) as [-> ->]. split; reflexivity.
Qed.

(** X8: on a well-formed state RRCA undoes RLCA and vice versa on A, and RRA undoes RLA and vice versa on A together with the carry flag. *)
Theorem rotate_roundtrip (s : Z80State) (i1 i2 : Z) :
  wf_state s ->
  rA (h_exec_instruction (h_exec_instruction s OP_RLCA i1) OP_RRCA i2) = rA s /\
  rA (h_exec_instruction (h_exec_instruction s OP_RRCA i1) OP_RLCA i2) = rA s /\
  rA (h_exec_instruction (h_exec_instruction s OP_RLA i1) OP_RRA i2) = rA s /\
  Z.testbit (rF (h_exec_instruction (h_exec_instruction s OP_RLA i1) OP_RRA i2)) 0 =
    Z.testbit (rF s) 0 /\
  rA (h_exec_instruction (h_exec_instruction s OP_RRA i1) OP_RLA i2) = rA s /\
  Z.testbit (rF (h_exec_instruction (h_exec_instruction s OP_RRA i1) OP_RLA i2)) 0 =
    Z.testbit (rF s) 0.
Proof.
  intros Hwf.
  assert (Ha : 0 <= rA s < 256) by (unfold wf_state in Hwf; tauto).
  assert (Hf : 0 <= rF s < 256) by (unfold wf_state in Hwf; tauto).
  pose proof (forall_bytes2 rot_rt_check rot_rt_all (rA s) (rF s) Ha Hf) as H.
  cbv beta zeta delta [rot_rt_check] in H. unpack H.
  destruct (af_read2 OP_RLCA OP_RRCA s i1 i2 ltac:(cbn; tauto) ltac:(cbn; tauto)) as [A1 _].
  destruct (af_read2 OP_RRCA OP_RLCA s i1 i2 ltac:(cbn; tauto) ltac:(cbn; tauto)) as [A2 _].
  destruct (af_read2 OP_RLA OP_RRA s i1 i2 ltac:(cbn; tauto) ltac:(cbn; tauto)) as [A3 F3].
  destruct (af_read2 OP_RRA OP_RLA s i1 i2 ltac:(cbn; tauto) ltac:(cbn; tauto)) as [A4 F4].
  rewrite A1, A2, A3, F3, A4, F4. repeat split; assumption.
Qed.

Lemma rotate_roundtrip_witness :
  wf_state (nth 5 h_test_vectors zero_state) /\
  rA (h_exec_instruction (h_exec_instruction (nth 5 h_test_vectors zero_state) OP_RLCA 0) OP_RRCA 0) =
    rA (nth 5 h_test_vectors zero_state).
Proof.
  assert (Hwf : wf_state (nth 5 h_test_vectors zero_state)) by (vm_compute; repeat split; discriminate).
  split; [exact Hwf|]. apply (rotate_roundtrip _ 0 0 Hwf).
Defined.

(** ** CPL, SCF, CCF *)
Definition misc_check (a f : Z) : bool :=
  let c1 := h_exec_instruction (af_state a f) OP_CPL 0 in
  let c2 := h_exec_instruction (af_state (rA c1) (rF c1)) OP_CPL 0 in
  let sc := h_exec_instruction (af_state a f) OP_SCF 0 in
  let cc := h_exec_instruction (af_state a f) OP_CCF 0 in
  (rA c1 =? 255 - a) && Z.testbit (rF c1) 4 && Z.testbit (rF c1) 1 &&
  Bool.eqb (Z.testbit (rF c1) 0) (Z.testbit f 0) && keeps_SZP f (rF c1) && (rA c2 =? a) &&
  (rA sc =? a) && Z.testbit (rF sc) 0 && negb (Z.testbit (rF sc) 4) &&
  negb (Z.testbit (rF sc) 1) && keeps_SZP f (rF sc) &&
  (rA cc =? a) && Bool.eqb (Z.testbit (rF cc) 0) (negb (Z.testbit f 0)) &&
  Bool.eqb (Z.testbit (rF cc) 4) (Z.testbit f 0) && negb (Z.testbit (rF cc) 1) &&
  keeps_SZP f (rF cc).

Lemma misc_all : forallb (fun a => forallb (misc_check a) (Zrange 256)) (Zrange 256) = true.
Proof. vm_compute. reflexivity. Qed.

Definition szp_kept (f : Z) (t : Z80State) : Prop :=
  Z.testbit (rF t) 2 = Z.testbit f 2 /\ Z.testbit (rF t) 6 = Z.testbit f 6 /\
  Z.testbit (rF t) 7 = Z.testbit f 7.

(** X9: on a well-formed state CPL complements A (twice restores it), sets N and H and keeps C; SCF sets C and clears N and H; CCF inverts C, copies the old carry into H and clears N; all three keep P/V, Z, S and change only A and F. *)
Theorem cpl_scf_ccf (s : Z80State) (i1 i2 : Z) :
  wf_state s ->
  let c1 := h_exec_instruction s OP_CPL i1 in
  let sc := h_exec_instruction s OP_SCF i1 in
  let cc := h_exec_instruction s OP_CCF i1 in
  rA c1 = 255 - rA s /\ Z.testbit (rF c1) 4 = true /\ Z.testbit (rF c1) 1 = true /\
  Z.testbit (rF c1) 0 = Z.testbit (rF s) 0 /\ szp_kept (rF s) c1 /\
  rA (h_exec_instruction c1 OP_CPL i2) = rA s /\
  rA sc = rA s /\ Z.testbit (rF sc) 0 = true /\ Z.testbit (rF sc) 4 = false /\
  Z.testbit (rF sc) 1 = false /\ szp_kept (rF s) sc /\
  rA cc = rA s /\ Z.testbit (rF cc) 0 = negb (Z.testbit (rF s) 0) /\
  Z.testbit (rF cc) 4 = Z.testbit (rF s) 0 /\ Z.testbit (rF cc) 1 = false /\
  szp_kept (rF s) cc /\
  only_AF s c1 /\ only_AF s sc /\ only_AF s cc.
Proof.
  intros Hwf c1 sc cc.
  assert (Ha : 0 <= rA s < 256) by (unfold wf_state in Hwf; tauto).
  assert (Hf : 0 <= rF s < 256) by (unfold wf_state in Hwf; tauto).
  pose proof (forall_bytes2 misc_check misc_all (rA s) (rF s) Ha Hf) as H.
  cbv beta zeta delta [misc_check keeps_SZP] in H. unpack H.
  destruct (af_read OP_CPL s i1 ltac:(cbn; tauto)) as [A1 F1].
  destruct (af_read OP_SCF s i1 ltac:(cbn; tauto)) as [A2 F2].
  destruct (af_read OP_CCF s i1 ltac:(cbn; tauto)) as [A3 F3].
  destruct (af_read2 OP_CPL OP_CPL s i1 i2 ltac:(cbn; tauto) ltac:(cbn; tauto)) as [A4 _].
  unfold szp_kept. subst c1 sc cc.
  rewrite A1, A2, A3, A4, F1, F2, F3.
  repeat split; try assumption; apply af_frame; cbn; tauto.
Qed.


Lemma forall_pairs (n : nat) (g : Z -> Z -> bool) :
  forallb (fun a => forallb (g a) (Zrange n)) (Zrange n) = true ->
  forall a b, 0 <= a < Z.of_nat n -> 0 <= b < Z.of_nat n -> g a b = true.
Proof.
  intros H a b Ha Hb.
  apply (Zrange_forallb (g a) n); [|lia].
  exact (Zrange_forallb (fun a => forallb (g a) (Zrange n)) n H a Ha).
Qed.

Definition neg_check (a f : Z) : bool :=
  let t := h_exec_instruction (af_state a f) OP_NEG 0 in
  let r := (256 - a) mod 256 in
  (rA t =? r) && Bool.eqb (Z.testbit (rF t) 0) (negb (a =? 0)) &&
  Z.testbit (rF t) 1 && Bool.eqb (Z.testbit (rF t) 2) (a =? 128) &&
  Bool.eqb (Z.testbit (rF t) 4) (negb (a mod 16 =? 0)) &&
  Bool.eqb (Z.testbit (rF t) 6) (a =? 0) && Bool.eqb (Z.testbit (rF t) 7) (128 <=? r).

Lemma neg_all : forallb (fun a => forallb (neg_check a) (Zrange 256)) (Zrange 256) = true.
Proof. vm_compute. reflexivity. Qed.

(** X10: on a well-formed state NEG sets A to (256 - A) mod 256 with C set iff A was nonzero, N set, P/V set iff A was 0x80, H set iff the low nibble of A was nonzero, Z set iff A was 0 and S the sign of the result; it changes only A and F. *)
Theorem neg_semantics (s : Z80State) (imm : Z) :
  wf_state s ->
  let t := h_exec_instruction s OP_NEG imm in
  let a := rA s in
  rA t = (256 - a) mod 256 /\
  Z.testbit (rF t) 0 = negb (a =? 0) /\ Z.testbit (rF t) 1 = true /\
  Z.testbit (rF t) 2 = (a =? 128) /\ Z.testbit (rF t) 4 = negb (a mod 16 =? 0) /\
  Z.testbit (rF t) 6 = (a =? 0) /\ Z.testbit (rF t) 7 = (128 <=? (256 - a) mod 256) /\
  only_AF s t.
Proof.
  intros Hwf t a.
  assert (Ha : 0 <= rA s < 256) by (unfold wf_state in Hwf; tauto).
  assert (Hf : 0 <= rF s < 256) by (unfold wf_state in Hwf; tauto).
  pose proof (forall_bytes2 neg_check neg_all (rA s) (rF s) Ha Hf) as H.
  cbv beta zeta delta [neg_check] in H. unpack H.
  destruct (af_read OP_NEG s imm ltac:(cbn; tauto)) as [A1 F1].
  subst t a. rewrite A1, F1. repeat split; try assumption. apply af_frame. cbn; tauto.
Qed.

(** ** DAA after a BCD addition or subtraction *)

(** Two-digit packed BCD encoding of 0..99. *)
Definition bcd (x : Z) : Z := 16 * (x / 10) + x mod 10.

Definition OP_ADD_A_N := OP_ALU_START + 0 * 8 + 7.
Definition OP_SUB_N := OP_ALU_START + 2 * 8 + 7.

Lemma alu_imm_read (op : Z) (s : Z80State) (v : Z) :
  In op [OP_ADD_A_N; OP_SUB_N] ->
  rA (h_exec_instruction s op v) = rA (h_exec_instruction (af_state (rA s) 0) op v) /\
  rF (h_exec_instruction s op v) = rF (h_exec_instruction (af_state (rA s) 0) op v).
Proof.
  intros H. cbn [In] in H.
  destruct s; repeat destruct H as [<-|H]; try contradiction; split; reflexivity.
Qed.

(** What the two DAA runs must give, as a function of their results. *)
Definition daa_ok (x y a f a' f' : Z) : bool :=
  (a =? bcd ((x + y) mod 100)) && Bool.eqb (Z.testbit f 0) (100 <=? x + y) &&
  Bool.eqb (Z.testbit f 6) ((x + y) mod 100 =? 0) &&
  (a' =? bcd ((x - y) mod 100)) && Bool.eqb (Z.testbit f' 0) (x <? y) &&
  Bool.eqb (Z.testbit f' 6) (x =? y).

Definition daa_check (x y : Z) : bool :=
  let u := h_exec_instruction (af_state (bcd x) 0) OP_ADD_A_N (bcd y) in
  let w := h_exec_instruction (af_state (rA u) (rF u)) OP_DAA 0 in
  let u' := h_exec_instruction (af_state (bcd x) 0) OP_SUB_N (bcd y) in
  let w' := h_exec_instruction (af_state (rA u') (rF u')) OP_DAA 0 in
  daa_ok x y (rA w) (rF w) (rA w') (rF w').

Lemma daa_all : forallb (fun x => forallb (daa_check x) (Zrange 100)) (Zrange 100) = true.
Proof. vm_compute. reflexivity. Qed.

Lemma daa_ok_true (x y a f a' f' : Z) :
  daa_ok x y a f a' f' = true ->
  a = bcd ((x + y) mod 100) /\ Z.testbit f 0 = (100 <=? x + y) /\
  Z.testbit f 6 = ((x + y) mod 100 =? 0) /\
  a' = bcd ((x - y) mod 100) /\ Z.testbit f' 0 = (x <? y) /\ Z.testbit f' 6 = (x =? y).
Proof. unfold daa_ok. intros H. unpack H. repeat split; assumption. Qed.

Lemma daa_read (op : Z) (s : Z80State) (v i : Z) :
  In op [OP_ADD_A_N; OP_SUB_N] ->
  let u := h_exec_instruction (af_state (rA s) 0) op v in
  rA (h_exec_instruction (h_exec_instruction s op v) OP_DAA i) =
    rA (h_exec_instruction (af_state (rA u) (rF u)) OP_DAA 0) /\
  rF (h_exec_instruction (h_exec_instruction s op v) OP_DAA i) =
    rF (h_exec_instruction (af_state (rA u) (rF u)) OP_DAA 0).
Proof.
  intros Hop u.
  destruct (af_read OP_DAA (h_exec_instruction s op v) i ltac:(cbn; tauto)) as [A1 F1].
  destruct (alu_imm_read op s v Hop) as [A3 F3].
  rewrite A1, F1, A3, F3. split; reflexivity.
Qed.

Lemma daa_facts (x y : Z) :
  0 <= x < 100 -> 0 <= y < 100 ->
  let u := h_exec_instruction (af_state (bcd x) 0) OP_ADD_A_N (bcd y) in
  let w := h_exec_instruction (af_state (rA u) (rF u)) OP_DAA 0 in
  let u' := h_exec_instruction (af_state (bcd x) 0) OP_SUB_N (bcd y) in
  let w' := h_exec_instruction (af_state (rA u') (rF u')) OP_DAA 0 in
  rA w = bcd ((x + y) mod 100) /\ Z.testbit (rF w) 0 = (100 <=? x + y) /\
  Z.testbit (rF w) 6 = ((x + y) mod 100 =? 0) /\
  rA w' = bcd ((x - y) mod 100) /\ Z.testbit (rF w') 0 = (x <? y) /\
  Z.testbit (rF w') 6 = (x =? y).
Proof.
  intros Hx Hy u w u' w'.
  exact (daa_ok_true x y _ _ _ _ (forall_pairs 100 daa_check daa_all x y Hx Hy)).
Qed.

(** X11: when A holds the packed BCD encoding of x < 100, ADD A,n with the BCD encoding of y < 100 followed by DAA yields the BCD encoding of (x + y) mod 100 with carry iff x + y >= 100, and SUB n followed by DAA yields the encoding of (x - y) mod 100 with carry iff x < y; Z is set iff the decimal result is 0. *)
Theorem daa_bcd_arith (s : Z80State) (x y i : Z) :
  0 <= x < 100 -> 0 <= y < 100 -> rA s = bcd x ->
  let w := h_exec_instruction (h_exec_instruction s OP_ADD_A_N (bcd y)) OP_DAA i in
  let w' := h_exec_instruction (h_exec_instruction s OP_SUB_N (bcd y)) OP_DAA i in
  rA w = bcd ((x + y) mod 100) /\ Z.testbit (rF w) 0 = (100 <=? x + y) /\
  Z.testbit (rF w) 6 = ((x + y) mod 100 =? 0) /\
  rA w' = bcd ((x - y) mod 100) /\ Z.testbit (rF w') 0 = (x <? y) /\
  Z.testbit (rF w') 6 = (x =? y).
Proof.
  intros Hx Hy Ha w w'. subst w w'.
  destruct (daa_read OP_ADD_A_N s (bcd y) i ltac:(cbn; tauto)) as [A1 F1].
  destruct (daa_read OP_SUB_N s (bcd y) i ltac:(cbn; tauto)) as [A2 F2].
  rewrite A1, F1, A2, F2, Ha. exact (daa_facts x y Hx Hy).
Qed.


(** The operand [val] of the 8-bit ALU block. *)
Definition alu_operand (s : Z80State) (src imm : Z) : Z :=
  if src <? 7 then get_r s (at_ ALU_SRC_H src) else u8 imm.

Lemma decode_alu (k src : Z) :
  0 <= k < 8 -> 0 <= src < 8 -> decode_op (OP_ALU_START + 8 * k + src) = Some (BAlu k src).
Proof.
  intros Hk Hs.
  assert (H : k = 0 \/ k = 1 \/ k = 2 \/ k = 3 \/ k = 4 \/ k = 5 \/ k = 6 \/ k = 7) by lia.
  assert (G : src = 0 \/ src = 1 \/ src = 2 \/ src = 3 \/ src = 4 \/ src = 5 \/ src = 6 \/ src = 7) by lia.
  destruct H as [->|[->|[->|[->|[->|[->|[->| ->]]]]]]];
  destruct G as [->|[->|[->|[->|[->|[->|[->| ->]]]]]]]; reflexivity.
Qed.











(** The switch of the ALU block over the operation index. *)
Lemma exec_alu (k src : Z) (s : Z80State) (imm : Z) :
  exec_branch (BAlu k src) s imm =
  let v := alu_operand s src imm in
  match k with
  | 0 => h_alu_add s v | 1 => h_alu_adc s v | 2 => h_alu_sub s v | 3 => h_alu_sbc s v
  | 4 => h_alu_and s v | 5 => h_alu_xor s v | 6 => h_alu_or s v | 7 => h_alu_cp s v
  | _ => s
  end.
Proof. reflexivity. Qed.


Lemma u8_lor_u8 (x y : Z) : u8 (Z.lor x (u8 y)) = u8 (Z.lor x y).
Proof.
  unfold u8. apply Z.bits_inj'. intros n Hn.
  rewrite !Z.land_spec, !Z.lor_spec, Z.land_spec.
  destruct (Z.testbit x n), (Z.testbit y n), (Z.testbit 255 n); reflexivity.
Qed.

Lemma carry_land (f : Z) : Z.land f FLAG_C = if Z.testbit f 0 then 1 else 0.
Proof.
  unfold FLAG_C. change 1 with (Z.ones 1) at 1. rewrite Z.land_ones by lia.
  rewrite Z.bit0_odd. apply Zmod_odd.
Qed.

Lemma adc_is_add (s : Z80State) (v : Z) :
  Z.testbit (rF s) 0 = false -> h_alu_adc s v = h_alu_add s v.
Proof.
  intros Hc. unfold h_alu_adc, h_alu_add, lookup8. rewrite carry_land, Hc, Z.add_0_r.
  cbv zeta. rewrite u8_lor_u8. reflexivity.
Qed.

Lemma sbc_is_sub (s : Z80State) (v : Z) :
  Z.testbit (rF s) 0 = false -> h_alu_sbc s v = h_alu_sub s v.
Proof.
  intros Hc. unfold h_alu_sbc, h_alu_sub. rewrite carry_land, Hc, Z.sub_0_r. reflexivity.
Qed.

(** X13: when the carry flag is clear, ADC A,x behaves exactly as ADD A,x and SBC A,x exactly as SUB x, for every operand source. *)
Theorem adc_sbc_carry_clear (s : Z80State) (src imm : Z) :
  Z.testbit (rF s) 0 = false -> 0 <= src < 8 ->
  h_exec_instruction s (OP_ALU_START + 8 * 1 + src) imm =
    h_exec_instruction s (OP_ALU_START + 8 * 0 + src) imm /\
  h_exec_instruction s (OP_ALU_START + 8 * 3 + src) imm =
    h_exec_instruction s (OP_ALU_START + 8 * 2 + src) imm.
Proof.
  intros Hc Hs.
  rewrite (exec_decoded s _ imm _ (decode_alu 1 src ltac:(lia) Hs)),
    (exec_decoded s _ imm _ (decode_alu 0 src ltac:(lia) Hs)),
    (exec_decoded s _ imm _ (decode_alu 3 src ltac:(lia) Hs)),
    (exec_decoded s _ imm _ (decode_alu 2 src ltac:(lia) Hs)), !exec_alu.
  cbv beta iota zeta. rewrite adc_is_add, sbc_is_sub by exact Hc. split; reflexivity.
Qed.

Lemma adc_sbc_carry_clear_witness :
  Z.testbit (rF (nth 4 h_test_vectors zero_state)) 0 = false /\ 0 <= 3 < 8 /\
  h_exec_instruction (nth 4 h_test_vectors zero_state) (OP_ALU_START + 8 * 1 + 3) 0 =
    h_exec_instruction (nth 4 h_test_vectors zero_state) (OP_ALU_START + 8 * 0 + 3) 0 /\
  h_exec_instruction (nth 4 h_test_vectors zero_state) (OP_ALU_START + 8 * 3 + 3) 0 =
    h_exec_instruction (nth 4 h_test_vectors zero_state) (OP_ALU_START + 8 * 2 + 3) 0.
Proof.
  assert (Hc : Z.testbit (rF (nth 4 h_test_vectors zero_state)) 0 = false) by reflexivity.
  split; [exact Hc|]. split; [lia|]. apply adc_sbc_carry_clear; [exact Hc | lia].
Defined.

Lemma join_bytes_eq (h l : Z) :
  0 <= h < 256 -> 0 <= l < 256 -> Z.lor (Z.shiftl h 8) l = 256 * h + l.
Proof.
  intros Hh Hl. apply Z.eqb_eq.
  exact (forall_bytes2 (fun h l => Z.lor (Z.shiftl h 8) l =? 256 * h + l)
           ltac:(vm_compute; reflexivity) h l Hh Hl).
Qed.

Lemma pair_bound (s : Z80State) (p : Z) :
  wf_state s -> 0 <= p < 4 -> 0 <= h_get_pair s p < 65536.
Proof.
  intros (HA & HF & HB & HC & HD & HE & HH & HL & HS) Hp.
  assert (H : p = 0 \/ p = 1 \/ p = 2 \/ p = 3) by lia.
  destruct H as [->|[->|[->| ->]]]; cbn [h_get_pair];
    rewrite ?join_bytes_eq by assumption; lia.
Qed.

Lemma ones_bit (n m : Z) : 0 <= n -> 0 <= m -> Z.testbit (Z.ones n) m = (m <? n).
Proof.
  intros Hn Hm. destruct (Z.ltb_spec m n).
  - apply Z.ones_spec_low. lia.
  - apply Z.ones_spec_high. lia.
Qed.

Lemma mod_bit (a k m : Z) : 0 <= k -> Z.testbit (a mod 2 ^ k) m = (m <? k) && Z.testbit a m.
Proof.
  intros Hk. destruct (Z.ltb_spec m k).
  - apply Z.mod_pow2_bits_low. lia.
  - apply Z.mod_pow2_bits_high. lia.
Qed.

Lemma shiftl_bit (a k m : Z) :
  0 <= k -> 0 <= m -> Z.testbit (Z.shiftl a k) m = (k <=? m) && Z.testbit a (m - k).
Proof.
  intros Hk Hm. destruct (Z.leb_spec k m).
  - apply Z.shiftl_spec_high; lia.
  - apply Z.shiftl_spec_low. lia.
Qed.

Ltac bits_cmp :=
  repeat match goal with
  | |- context [?a <? ?b] => destruct (Z.ltb_spec a b)
  | |- context [?a <=? ?b] => destruct (Z.leb_spec a b)
  end; try lia; cbn [andb orb].

(** The high and low bytes that the 16-bit helpers store, read back as a pair. *)
Lemma join_u32 (y : Z) :
  Z.lor (Z.shiftl (u8 (Z.shiftr (u32 y) 8)) 8) (u8 (u32 y)) = y mod 65536.
Proof.
  unfold u8, u32. change 255 with (Z.ones 8). change 4294967295 with (Z.ones 32).
  change 65536 with (2 ^ 16).
  apply Z.bits_inj'. intros n Hn.
  rewrite Z.lor_spec, shiftl_bit, !Z.land_spec, mod_bit by lia.
  destruct (Z.leb_spec 8 n).
  - rewrite Z.shiftr_spec, !Z.land_spec, !ones_bit by lia.
    replace (n - 8 + 8) with n by lia. bits_cmp;
      destruct (Z.testbit y n); reflexivity.
  - replace (8 <=? n) with false by (symmetry; apply Z.leb_gt; lia). cbn [andb orb].
    rewrite !ones_bit by lia. bits_cmp; destruct (Z.testbit y n); reflexivity.
Qed.

Lemma nz_land_pow2 (x k : Z) : 0 <= k -> nz (Z.land x (2 ^ k)) = Z.testbit x k.
Proof.
  intros Hk. unfold nz. destruct (Z.testbit x k) eqn:E.
  - apply negb_true_iff, Z.eqb_neq. intros H.
    assert (T := f_equal (fun z => Z.testbit z k) H). cbn beta in T.
    rewrite Z.land_spec, Z.pow2_bits_true, E, Z.bits_0 in T by lia. discriminate.
  - apply negb_false_iff, Z.eqb_eq. apply Z.bits_inj'. intros n Hn.
    rewrite Z.land_spec, Z.pow2_bits_eqb, Z.bits_0 by lia.
    destruct (Z.eqb_spec k n) as [<-|]; [rewrite E; reflexivity | apply andb_false_r].
Qed.

Lemma u32_bit (y n : Z) : 0 <= n < 32 -> Z.testbit (u32 y) n = Z.testbit y n.
Proof.
  intros Hn. unfold u32. change 4294967295 with (Z.ones 32).
  rewrite Z.land_spec, ones_bit by lia. bits_cmp. apply andb_true_r.
Qed.

Lemma bit_of_div (y k q : Z) : 0 <= k -> y / 2 ^ k = q -> Z.testbit y k = Z.odd q.
Proof.
  intros Hk Hq. pose proof (Z.testbit_spec' y k Hk) as T.
  rewrite Hq, Zmod_odd in T. destruct (Z.testbit y k), (Z.odd q); cbn in T; congruence.
Qed.

Lemma bit_range_add (y k : Z) :
  0 <= k -> 0 <= y < 2 * 2 ^ k -> Z.testbit y k = (2 ^ k <=? y).
Proof.
  intros Hk Hy. assert (Hp : 0 < 2 ^ k) by (apply Z.pow_pos_nonneg; lia).
  destruct (Z.leb_spec (2 ^ k) y).
  - apply (bit_of_div y k 1 Hk). symmetry. apply Z.div_unique with (y - 2 ^ k); lia.
  - apply (bit_of_div y k 0 Hk). apply Z.div_small. lia.
Qed.

Lemma bit_range_sub (y k : Z) :
  0 <= k -> - 2 ^ k <= y < 2 ^ k -> Z.testbit y k = (y <? 0).
Proof.
  intros Hk Hy. assert (Hp : 0 < 2 ^ k) by (apply Z.pow_pos_nonneg; lia).
  destruct (Z.ltb_spec y 0).
  - apply (bit_of_div y k (-1) Hk). symmetry. apply Z.div_unique with (y + 2 ^ k); lia.
  - apply (bit_of_div y k 0 Hk). apply Z.div_small. lia.
Qed.

Lemma tbl_bit (t : list Z) (b i n : Z) :
  0 <= b -> n <> b -> (forall x, In x t -> x = 0 \/ x = 2 ^ b) ->
  Z.testbit (at_ t i) n = false.
Proof.
  intros Hb Hn Ht. unfold at_.
  destruct (nth_in_or_default (Z.to_nat i) t 0) as [Hin|Hd].
  - destruct (Ht _ Hin) as [->| ->]; [apply Z.bits_0|].
    destruct (Z.lt_ge_cases n 0); [apply Z.testbit_neg_r; lia|].
    rewrite Z.pow2_bits_eqb by lia. apply Z.eqb_neq. lia.
  - rewrite Hd. apply Z.bits_0.
Qed.

Lemma decode_add_hl (p : Z) :
  0 <= p < 4 -> decode_op (OP_ADD_HL_START + p) = Some (BAddHL p).
Proof.
  intros Hp. assert (H : p = 0 \/ p = 1 \/ p = 2 \/ p = 3) by lia.
  destruct H as [->|[->|[->| ->]]]; reflexivity.
Qed.

Lemma u8_bit (x n : Z) : 0 <= n < 8 -> Z.testbit (u8 x) n = Z.testbit x n.
Proof.
  intros Hn. unfold u8. change 255 with (Z.ones 8).
  rewrite Z.land_spec, ones_bit by lia. bits_cmp. apply andb_true_r.
Qed.

Lemma carry16_add (y : Z) : 0 <= y < 131072 -> nz (Z.land (u32 y) 65536) = (65536 <=? y).
Proof.
  intros Hy. change 65536 with (2 ^ 16) at 1.
  rewrite nz_land_pow2, u32_bit, bit_range_add by lia. reflexivity.
Qed.

Lemma half12_add (x v : Z) :
  nz (Z.land (u16 (Z.land x 0x0FFF + Z.land v 0x0FFF)) 0x1000) =
  (4096 <=? x mod 4096 + v mod 4096).
Proof.
  change 0x0FFF with (Z.ones 12). rewrite !Z.land_ones by lia. rewrite u16_mod.
  pose proof (Z.mod_pos_bound x (2 ^ 12) ltac:(lia)).
  pose proof (Z.mod_pos_bound v (2 ^ 12) ltac:(lia)).
  rewrite (Z.mod_small _ 65536) by (cbn in *; lia).
  change 0x1000 with (2 ^ 12). rewrite nz_land_pow2, bit_range_add by (cbn in *; lia).
  reflexivity.
Qed.

(** X14: on a well-formed state ADD HL,rr sets HL to (HL + rr) mod 65536, sets C on a carry out of bit 15 and H on a carry out of bit 11, clears N, keeps P/V, Z and S, takes bits 3 and 5 from bits 11 and 13 of the result, and changes only H, L and F. *)
Theorem add_hl_semantics (s : Z80State) (p imm : Z) :
  wf_state s -> 0 <= p < 4 ->
  let hl := h_get_pair s 2 in
  let v := h_get_pair s p in
  let t := h_exec_instruction s (OP_ADD_HL_START + p) imm in
  h_get_pair t 2 = (hl + v) mod 65536 /\
  Z.testbit (rF t) 0 = (65536 <=? hl + v) /\
  Z.testbit (rF t) 1 = false /\
  Z.testbit (rF t) 4 = (4096 <=? hl mod 4096 + v mod 4096) /\
  Z.testbit (rF t) 2 = Z.testbit (rF s) 2 /\
  Z.testbit (rF t) 6 = Z.testbit (rF s) 6 /\
  Z.testbit (rF t) 7 = Z.testbit (rF s) 7 /\
  Z.testbit (rF t) 3 = Z.testbit (h_get_pair t 2) 11 /\
  Z.testbit (rF t) 5 = Z.testbit (h_get_pair t 2) 13 /\
  t = mkState (rA s) (rF t) (rB s) (rC s) (rD s) (rE s) (rH t) (rL t) (sp s).
Proof.
  intros Hwf Hp. cbv zeta.
  rewrite (exec_decoded s _ imm _ (decode_add_hl p Hp)). cbn [exec_branch].
  unfold h_exec_add_hl. change (hl_of s) with (h_get_pair s 2). cbv zeta.
  assert (Hhl : 0 <= h_get_pair s 2 < 65536) by (apply pair_bound; [exact Hwf | lia]).
  assert (Hv : 0 <= h_get_pair s p < 65536) by (apply pair_bound; [exact Hwf | lia]).
  set (hl := h_get_pair s 2) in *. set (v := h_get_pair s p) in *.

  rewrite carry16_add, half12_add by lia.
  set (R := u32 (hl + v)).
  assert (E : forall f h l, h_get_pair (set_r (set_r (set_r s REG_F f) REG_H h) REG_L l) 2
            = Z.lor (Z.shiftl h 8) l) by (intros; destruct s; reflexivity).
  assert (EF : forall f h l, rF (set_r (set_r (set_r s REG_F f) REG_H h) REG_L l) = f)
    by (intros; destruct s; reflexivity).
  rewrite !E, !EF. unfold R. rewrite join_u32.
  split; [reflexivity|].
  unfold bsel_h, FLAG_S, FLAG_Z, FLAG_P, FLAG_H, FLAG_C, FLAG_3, FLAG_5.
  rewrite !u8_bit by lia.
  rewrite !Z.lor_spec, !Z.land_spec.
  change 65536 with (2 ^ 16). rewrite !mod_bit by lia.
  rewrite !u8_bit by lia. rewrite !Z.shiftr_spec by lia. rewrite !u32_bit by lia.
  destruct (2 ^ 16 <=? hl + v), (4096 <=? hl mod 4096 + v mod 4096);
    cbn [Z.testbit Pos.testbit Z.add andb orb];
    rewrite ?andb_false_r, ?andb_true_r, ?orb_false_r, ?orb_true_r;
    (split; [reflexivity|]); repeat (split; [reflexivity|]);
    destruct s; reflexivity.
Qed.

Definition signed16 (x : Z) : Z := if x <? 32768 then x else x - 65536.
Definition overflows16 (t : Z) : bool := (t <? -32768) || (32767 <? t).

Lemma bit_as_mod (x k : Z) : 0 <= k -> Z.testbit x k = (2 ^ k <=? x mod 2 ^ (k + 1)).
Proof.
  intros Hk. assert (Hp : 2 ^ (k + 1) = 2 * 2 ^ k) by (rewrite Z.pow_add_r by lia; lia).
  assert (Hq : 0 < 2 ^ k) by (apply Z.pow_pos_nonneg; lia).
  transitivity (Z.testbit (x mod 2 ^ (k + 1)) k).
  - rewrite mod_bit by lia. bits_cmp. reflexivity.
  - apply bit_range_add; [lia|]. rewrite <- Hp. apply Z.mod_pos_bound. lia.
Qed.

Ltac const_bits :=
  repeat match goal with
  | |- context [Z.testbit (Z.pos ?p) ?k] =>
      let b := eval vm_compute in (Z.testbit (Z.pos p) k) in
      change (Z.testbit (Z.pos p) k) with b
  | |- context [Z.testbit 0 ?k] => rewrite (Z.bits_0 k)
  end; cbn [andb orb].

Lemma bit11_mod (x : Z) : Z.testbit x 11 = (2048 <=? x mod 4096).
Proof. apply (bit_as_mod x 11). lia. Qed.

Lemma bit15_mod (x : Z) : Z.testbit x 15 = (32768 <=? x mod 65536).
Proof. apply (bit_as_mod x 15). lia. Qed.

Lemma land_8800 (x : Z) :
  Z.land x 0x8800 = 0x8000 * Z.b2z (Z.testbit x 15) + 0x800 * Z.b2z (Z.testbit x 11).
Proof.
  apply Z.bits_inj'. intros n Hn. rewrite Z.land_spec.
  assert (Hc : forall c, 0 <= c < 65536 -> Z.testbit c n = (n <? 16) && Z.testbit c n).
  { intros c Hc. rewrite <- (Z.mod_small c (2 ^ 16)) at 1 by (cbn; lia).
    apply mod_bit. lia. }
  destruct (Z.testbit x 15) eqn:E15, (Z.testbit x 11) eqn:E11;
  cbn [Z.b2z Z.mul Z.add Pos.mul]; rewrite (Hc 0x8800) by lia;
  match goal with |- _ = Z.testbit ?c n => rewrite (Hc c) by lia end;
  clear Hc; (destruct (Z.ltb_spec n 16); [|cbn [andb]; apply andb_false_r]);
  destruct (Z_of_nat_complete n Hn) as [k ->];
  do 16 (destruct k as [|k];
    [cbn [Z.of_nat Pos.of_succ_nat Pos.succ]; rewrite ?E15, ?E11; const_bits;
     rewrite ?andb_false_r, ?andb_true_r; reflexivity|]);
  exfalso; lia.
Qed.

Lemma lookup16_low (h v r : Z) :
  Z.land (lookup16 h v r) 7 =
  Z.b2z (Z.testbit h 11) + 2 * Z.b2z (Z.testbit v 11) + 4 * Z.b2z (Z.testbit r 11).
Proof.
  unfold lookup16. rewrite !land_8800.
  destruct (Z.testbit h 15), (Z.testbit h 11), (Z.testbit v 15), (Z.testbit v 11),
    (Z.testbit r 15), (Z.testbit r 11); reflexivity.
Qed.

Lemma lookup16_high (h v r : Z) :
  Z.shiftr (lookup16 h v r) 4 =
  Z.b2z (Z.testbit h 15) + 2 * Z.b2z (Z.testbit v 15) + 4 * Z.b2z (Z.testbit r 15).
Proof.
  unfold lookup16. rewrite !land_8800.
  destruct (Z.testbit h 15), (Z.testbit h 11), (Z.testbit v 15), (Z.testbit v 11),
    (Z.testbit r 15), (Z.testbit r 11); reflexivity.
Qed.

Ltac div_facts x m :=
  pose proof (Z.div_mod x m ltac:(lia)); pose proof (Z.mod_pos_bound x m ltac:(lia)).

Ltac flag_cases :=
  repeat match goal with
  | |- context [?a <=? ?b] => destruct (Z.leb_spec a b)
  | |- context [?a <? ?b] => destruct (Z.ltb_spec a b)
  end; first [reflexivity | exfalso; lia].

Lemma adc_hc (hl v c : Z) :
  0 <= c <= 1 ->
  at_ h_halfcarry_add (Z.land (lookup16 hl v (u32 (hl + v + c))) 7) =
  bsel_h (4096 <=? hl mod 4096 + v mod 4096 + c) FLAG_H 0.
Proof.
  intros Hc. rewrite lookup16_low, u32_bit by lia. rewrite !bit11_mod. unfold bsel_h.
  div_facts hl 4096. div_facts v 4096. div_facts (hl + v + c) 4096.
  flag_cases.
Qed.

Lemma sbc_hc (hl v c : Z) :
  0 <= c <= 1 ->
  at_ h_halfcarry_sub (Z.land (lookup16 hl v (u32 (hl - v - c))) 7) =
  bsel_h (hl mod 4096 <? v mod 4096 + c) FLAG_H 0.
Proof.
  intros Hc. rewrite lookup16_low, u32_bit by lia. rewrite !bit11_mod. unfold bsel_h.
  div_facts hl 4096. div_facts v 4096. div_facts (hl - v - c) 4096.
  flag_cases.
Qed.

Lemma adc_ov (hl v c : Z) :
  0 <= hl < 65536 -> 0 <= v < 65536 -> 0 <= c <= 1 ->
  at_ h_overflow_add (Z.shiftr (lookup16 hl v (u32 (hl + v + c))) 4) =
  bsel_h (overflows16 (signed16 hl + signed16 v + c)) FLAG_V 0.
Proof.
  intros Hh Hv Hc. rewrite lookup16_high, u32_bit by lia. rewrite !bit15_mod. unfold bsel_h, overflows16, signed16.
  rewrite (Z.mod_small hl), (Z.mod_small v) by lia.
  destruct (Z.ltb_spec hl 32768), (Z.ltb_spec v 32768);
    div_facts (hl + v + c) 65536; flag_cases.
Qed.

Lemma sbc_ov (hl v c : Z) :
  0 <= hl < 65536 -> 0 <= v < 65536 -> 0 <= c <= 1 ->
  at_ h_overflow_sub (Z.shiftr (lookup16 hl v (u32 (hl - v - c))) 4) =
  bsel_h (overflows16 (signed16 hl - signed16 v - c)) FLAG_V 0.
Proof.
  intros Hh Hv Hc. rewrite lookup16_high, u32_bit by lia. rewrite !bit15_mod. unfold bsel_h, overflows16, signed16.
  rewrite (Z.mod_small hl), (Z.mod_small v) by lia.
  destruct (Z.ltb_spec hl 32768), (Z.ltb_spec v 32768);
    div_facts (hl - v - c) 65536; flag_cases.
Qed.

Lemma carry_b2z (f : Z) : Z.land f FLAG_C = Z.b2z (Z.testbit f 0).
Proof.
  unfold FLAG_C. change 1 with (Z.ones 1) at 1. rewrite Z.land_ones by lia.
  rewrite Z.bit0_odd, Zmod_odd. reflexivity.
Qed.

Lemma carry16_sub (y : Z) : -65536 <= y < 65536 -> nz (Z.land (u32 y) 65536) = (y <? 0).
Proof.
  intros Hy. change 65536 with (2 ^ 16) at 1.
  rewrite nz_land_pow2, u32_bit, bit_range_sub by (cbn; lia). reflexivity.
Qed.

Lemma nz_lor_shift (a b : Z) : nz (Z.lor a b) = negb (Z.lor (Z.shiftl a 8) b =? 0).
Proof.
  unfold nz. f_equal.
  destruct (Z.eqb_spec (Z.lor a b) 0) as [E|E], (Z.eqb_spec (Z.lor (Z.shiftl a 8) b) 0) as [F|F];
    try reflexivity; exfalso.
  - apply Z.lor_eq_0_iff in E as [-> ->]. apply F. reflexivity.
  - apply Z.lor_eq_0_iff in F as [F ->]. apply Z.shiftl_eq_0_iff in F; [|lia]. subst.
    apply E. reflexivity.
Qed.

Lemma decode_adc_sbc_hl (p : Z) :
  0 <= p < 4 ->
  decode_op (OP_ADC_HL_START + p) = Some (BAdcHL p) /\
  decode_op (OP_SBC_HL_START + p) = Some (BSbcHL p).
Proof.
  intros Hp. assert (H : p = 0 \/ p = 1 \/ p = 2 \/ p = 3) by lia.
  destruct H as [->|[->|[->| ->]]]; split; reflexivity.
Qed.

Lemma set_HLF (s : Z80State) (h l f : Z) :
  let s1 := set_r (set_r s REG_H h) REG_L l in
  rH s1 = h /\ rL s1 = l /\
  h_get_pair (set_r s1 REG_F f) 2 = Z.lor (Z.shiftl h 8) l /\ rF (set_r s1 REG_F f) = f /\
  set_r s1 REG_F f = mkState (rA s) f (rB s) (rC s) (rD s) (rE s) h l (sp s).
Proof. destruct s; repeat split. Qed.

(** X15: on a well-formed state ADC HL,rr sets HL to (HL + rr + carry) mod 65536, C on carry out of bit 15, H on carry out of bit 11, P/V on signed 16-bit overflow, clears N, and sets Z and S and bits 3 and 5 from the 16-bit result; the table-driven flags equal these arithmetic definitions. Only H, L and F change. *)
Theorem adc_hl_semantics (s : Z80State) (p imm : Z) :
  wf_state s -> 0 <= p < 4 ->
  let hl := h_get_pair s 2 in
  let v := h_get_pair s p in
  let c := Z.b2z (Z.testbit (rF s) 0) in
  let t := h_exec_instruction s (OP_ADC_HL_START + p) imm in
  h_get_pair t 2 = (hl + v + c) mod 65536 /\
  Z.testbit (rF t) 0 = (65536 <=? hl + v + c) /\
  Z.testbit (rF t) 1 = false /\
  Z.testbit (rF t) 2 = overflows16 (signed16 hl + signed16 v + c) /\
  Z.testbit (rF t) 4 = (4096 <=? hl mod 4096 + v mod 4096 + c) /\
  Z.testbit (rF t) 6 = (h_get_pair t 2 =? 0) /\
  Z.testbit (rF t) 7 = Z.testbit (h_get_pair t 2) 15 /\
  Z.testbit (rF t) 3 = Z.testbit (h_get_pair t 2) 11 /\
  Z.testbit (rF t) 5 = Z.testbit (h_get_pair t 2) 13 /\
  t = mkState (rA s) (rF t) (rB s) (rC s) (rD s) (rE s) (rH t) (rL t) (sp s).
Proof.
  intros Hwf Hp. cbv zeta.
  rewrite (exec_decoded s _ imm _ (proj1 (decode_adc_sbc_hl p Hp))). cbn [exec_branch].
  unfold h_exec_adc_hl. change (hl_of s) with (h_get_pair s 2). cbv zeta.
  assert (Hhl : 0 <= h_get_pair s 2 < 65536) by (apply pair_bound; [exact Hwf | lia]).
  assert (Hv : 0 <= h_get_pair s p < 65536) by (apply pair_bound; [exact Hwf | lia]).
  rewrite carry_b2z.
  assert (Hc : 0 <= Z.b2z (Z.testbit (rF s) 0) <= 1) by (destruct (Z.testbit (rF s) 0); cbn; lia).
  set (hl := h_get_pair s 2) in *. set (v := h_get_pair s p) in *.
  set (c := Z.b2z (Z.testbit (rF s) 0)) in *.
  destruct (set_HLF s (u8 (Z.shiftr (u32 (hl + v + c)) 8)) (u8 (u32 (hl + v + c))) 0)
    as (EH & EL & _).
  rewrite EH, EL.
  match goal with |- context [set_r ?s1 REG_F ?f] =>
    destruct (set_HLF s (u8 (Z.shiftr (u32 (hl + v + c)) 8)) (u8 (u32 (hl + v + c))) f)
      as (_ & _ & EP & EF & ES) end.
  rewrite ES. cbn [rA rB rC rD rE rF rH rL sp]. rewrite <- ES, EP, join_u32.
  rewrite carry16_add, adc_hc, adc_ov, nz_lor_shift, join_u32 by lia.
  split; [reflexivity|].
  unfold bsel_h, FLAG_S, FLAG_Z, FLAG_V, FLAG_H, FLAG_C, FLAG_3, FLAG_5.
  rewrite !u8_bit by lia.
  rewrite !Z.lor_spec, !Z.land_spec.
  change 65536 with (2 ^ 16). rewrite !mod_bit by lia.
  rewrite !u8_bit by lia. rewrite !Z.shiftr_spec by lia. rewrite !u32_bit by lia.
  change (2 ^ 16) with 65536.
  destruct (65536 <=? hl + v + c), (overflows16 (signed16 hl + signed16 v + c)),
    (4096 <=? hl mod 4096 + v mod 4096 + c), ((hl + v + c) mod 65536 =? 0);
    cbn [Z.testbit Pos.testbit Z.add andb orb negb];
    rewrite ?andb_false_r, ?andb_true_r, ?orb_false_r, ?orb_true_r;
    repeat (split; [reflexivity|]); reflexivity.
Qed.

(** X16: on a well-formed state SBC HL,rr sets HL to (HL - rr - carry) mod 65536, C on borrow, H on borrow from bit 12, P/V on signed 16-bit overflow, sets N, and sets Z and S and bits 3 and 5 from the 16-bit result. Only H, L and F change. *)
Theorem sbc_hl_semantics (s : Z80State) (p imm : Z) :
  wf_state s -> 0 <= p < 4 ->
  let hl := h_get_pair s 2 in
  let v := h_get_pair s p in
  let c := Z.b2z (Z.testbit (rF s) 0) in
  let t := h_exec_instruction s (OP_SBC_HL_START + p) imm in
  h_get_pair t 2 = (hl - v - c) mod 65536 /\
  Z.testbit (rF t) 0 = (hl <? v + c) /\
  Z.testbit (rF t) 1 = true /\
  Z.testbit (rF t) 2 = overflows16 (signed16 hl - signed16 v - c) /\
  Z.testbit (rF t) 4 = (hl mod 4096 <? v mod 4096 + c) /\
  Z.testbit (rF t) 6 = (h_get_pair t 2 =? 0) /\
  Z.testbit (rF t) 7 = Z.testbit (h_get_pair t 2) 15 /\
  Z.testbit (rF t) 3 = Z.testbit (h_get_pair t 2) 11 /\
  Z.testbit (rF t) 5 = Z.testbit (h_get_pair t 2) 13 /\
  t = mkState (rA s) (rF t) (rB s) (rC s) (rD s) (rE s) (rH t) (rL t) (sp s).
Proof.
  intros Hwf Hp. cbv zeta.
  rewrite (exec_decoded s _ imm _ (proj2 (decode_adc_sbc_hl p Hp))). cbn [exec_branch].
  unfold h_exec_sbc_hl. change (hl_of s) with (h_get_pair s 2). cbv zeta.
  assert (Hhl : 0 <= h_get_pair s 2 < 65536) by (apply pair_bound; [exact Hwf | lia]).
  assert (Hv : 0 <= h_get_pair s p < 65536) by (apply pair_bound; [exact Hwf | lia]).
  rewrite carry_b2z.
  assert (Hc : 0 <= Z.b2z (Z.testbit (rF s) 0) <= 1) by (destruct (Z.testbit (rF s) 0); cbn; lia).
  set (hl := h_get_pair s 2) in *. set (v := h_get_pair s p) in *.
  set (c := Z.b2z (Z.testbit (rF s) 0)) in *.
  destruct (set_HLF s (u8 (Z.shiftr (u32 (hl - v - c)) 8)) (u8 (u32 (hl - v - c))) 0)
    as (EH & EL & _).
  rewrite EH, EL.
  match goal with |- context [set_r ?s1 REG_F ?f] =>
    destruct (set_HLF s (u8 (Z.shiftr (u32 (hl - v - c)) 8)) (u8 (u32 (hl - v - c))) f)
      as (_ & _ & EP & EF & ES) end.
  rewrite ES. cbn [rA rB rC rD rE rF rH rL sp]. rewrite <- ES, EP, join_u32.
  rewrite carry16_sub, sbc_hc, sbc_ov, nz_lor_shift, join_u32 by lia.
  split; [reflexivity|].
  unfold bsel_h, FLAG_N, FLAG_S, FLAG_Z, FLAG_V, FLAG_H, FLAG_C, FLAG_3, FLAG_5.
  rewrite !u8_bit by lia.
  rewrite !Z.lor_spec, !Z.land_spec.
  change 65536 with (2 ^ 16). rewrite !mod_bit by lia.
  rewrite !u8_bit by lia. rewrite !Z.shiftr_spec by lia. rewrite !u32_bit by lia.
  change (2 ^ 16) with 65536.
  replace (hl - v - c <? 0) with (hl <? v + c)
    by (destruct (Z.ltb_spec hl (v + c)), (Z.ltb_spec (hl - v - c) 0); reflexivity || lia).
  destruct (hl <? v + c), (overflows16 (signed16 hl - signed16 v - c)),
    (hl mod 4096 <? v mod 4096 + c), ((hl - v - c) mod 65536 =? 0);
    cbn [Z.testbit Pos.testbit Z.add andb orb negb];
    rewrite ?andb_false_r, ?andb_true_r, ?orb_false_r, ?orb_true_r;
    repeat (split; [reflexivity|]); reflexivity.
Qed.

(** ** Rotates and shifts of the CB group *)

Definition cb_fun (j : Z) : Z80State -> Z -> Z80State * Z :=
  match j with
  | 0 => h_cb_rlc | 1 => h_cb_rrc | 2 => h_cb_rl | 3 => h_cb_rr
  | 4 => h_cb_sla | 5 => h_cb_sra | 6 => h_cb_srl | _ => h_cb_sll
  end.

(** Opcode of CB operation [j] on [CB_REG_H[k]]; [j = 7] is SLL. *)
Definition cb_opcode (j k : Z) : Z :=
  if j <? 7 then OP_CB_START + 7 * j + k else OP_SLL_A + k.

Definition cb_result (j v c : Z) : Z :=
  match j with
  | 0 => (2 * v) mod 256 + v / 128
  | 1 => v / 2 + 128 * (v mod 2)
  | 2 => (2 * v) mod 256 + c
  | 3 => v / 2 + 128 * c
  | 4 => (2 * v) mod 256
  | 5 => v / 2 + 128 * (v / 128)
  | 6 => v / 2
  | _ => (2 * v) mod 256 + 1
  end.

Definition cb_carry (j v : Z) : bool :=
  if (j =? 1) || (j =? 3) || (j =? 5) || (j =? 6) then Z.odd v else 128 <=? v.

Definition cb_flags_ok (g w : Z) : bool :=
  negb (Z.testbit g 1) && negb (Z.testbit g 4) && Bool.eqb (Z.testbit g 6) (w =? 0) &&
  Bool.eqb (Z.testbit g 7) (128 <=? w) && Bool.eqb (Z.testbit g 2) (Nat.even (popcount8 w)) &&
  Bool.eqb (Z.testbit g 3) (Z.testbit w 3) && Bool.eqb (Z.testbit g 5) (Z.testbit w 5).

Definition cb_flag_props (g w : Z) : Prop :=
  Z.testbit g 1 = false /\ Z.testbit g 4 = false /\ Z.testbit g 6 = (w =? 0) /\
  Z.testbit g 7 = (128 <=? w) /\ Z.testbit g 2 = Nat.even (popcount8 w) /\
  Z.testbit g 3 = Z.testbit w 3 /\ Z.testbit g 5 = Z.testbit w 5.

Lemma cb_flags_ok_true (g w : Z) : cb_flags_ok g w = true -> cb_flag_props g w.
Proof.
  unfold cb_flags_ok, cb_flag_props. intros H. unpack H.
  repeat split; try assumption; apply negb_true_iff; assumption.
Qed.

Definition cb_ok (j v c w g : Z) : bool :=
  (w =? cb_result j v c) && Bool.eqb (Z.testbit g 0) (cb_carry j v) && cb_flags_ok g w.

Definition cb_check (j v f : Z) : bool :=
  let r := cb_fun j (af_state 0 f) v in
  cb_ok j v (Z.b2z (Z.testbit f 0)) (snd r) (rF (fst r)).

(** RL and RR read the carry; the other six ignore F. *)
Lemma cb_all :
  forallb (fun j => forallb (fun v => cb_check j v 0) (Zrange 256)) [0; 1; 4; 5; 6; 7] &&
  forallb (fun j => forallb (fun v => forallb (cb_check j v) (Zrange 256)) (Zrange 256))
    [2; 3] = true.
Proof. vm_compute. reflexivity. Qed.

Lemma cb_transfer (j : Z) (s : Z80State) (v : Z) :
  cb_fun j s v =
  (set_r s REG_F (rF (fst (cb_fun j (af_state 0 (rF s)) v))),
   snd (cb_fun j (af_state 0 (rF s)) v)).
Proof.
  destruct s. unfold cb_fun.
  destruct j as [|[p|p|]|p]; try destruct p as [p|p|]; try destruct p as [p|p|];
    reflexivity.
Qed.

Lemma cb_check_any (j v f : Z) :
  0 <= j < 8 -> 0 <= v < 256 -> 0 <= f < 256 -> cb_check j v f = true.
Proof.
  intros Hj Hv Hf. pose proof cb_all as H. apply andb_prop in H as [H1 H2].
  assert (Hc : j = 2 \/ j = 3 \/ In j [0; 1; 4; 5; 6; 7]).
  { assert (j = 0 \/ j = 1 \/ j = 2 \/ j = 3 \/ j = 4 \/ j = 5 \/ j = 6 \/ j = 7) as Hj'
      by lia.
    destruct Hj' as [->|[->|[->|[->|[->|[->|[->| ->]]]]]]]; cbn; tauto. }
  destruct Hc as [Hc|[Hc|Hc]].
  - rewrite forallb_forall in H2.
    exact (forall_bytes2 (cb_check j) (H2 j ltac:(rewrite Hc; cbn; tauto)) v f Hv Hf).
  - rewrite forallb_forall in H2.
    exact (forall_bytes2 (cb_check j) (H2 j ltac:(rewrite Hc; cbn; tauto)) v f Hv Hf).
  - rewrite forallb_forall in H1. specialize (H1 j Hc).
    pose proof (Zrange_forallb _ 256 H1 v Hv) as H. cbv beta in H.
    unfold cb_check in *.
    cbn [In] in Hc. repeat destruct Hc as [<-|Hc]; try contradiction; exact H.
Qed.

Lemma exec_cb (s : Z80State) (j k imm : Z) :
  0 <= j < 8 -> 0 <= k < 7 ->
  h_exec_instruction s (cb_opcode j k) imm = cb_assign (cb_fun j) s (at_ CB_REG_H k).
Proof.
  intros Hj Hk.
  assert (Hj' : j = 0 \/ j = 1 \/ j = 2 \/ j = 3 \/ j = 4 \/ j = 5 \/ j = 6 \/ j = 7) by lia.
  assert (Hk' : k = 0 \/ k = 1 \/ k = 2 \/ k = 3 \/ k = 4 \/ k = 5 \/ k = 6) by lia.
  destruct Hj' as [->|[->|[->|[->|[->|[->|[->| ->]]]]]]];
    destruct Hk' as [->|[->|[->|[->|[->|[->| ->]]]]]]; reflexivity.
Qed.

Lemma cb_reg_range (k : Z) :
  0 <= k < 7 -> 0 <= at_ CB_REG_H k < 8 /\ at_ CB_REG_H k <> REG_F.
Proof.
  intros Hk.
  assert (Hk' : k = 0 \/ k = 1 \/ k = 2 \/ k = 3 \/ k = 4 \/ k = 5 \/ k = 6) by lia.
  destruct Hk' as [->|[->|[->|[->|[->|[->| ->]]]]]]; vm_compute; split; (split || idtac); congruence.
Qed.

Lemma set_r_reg_F (s : Z80State) (reg f w : Z) :
  0 <= reg < 8 -> reg <> REG_F ->
  let t := set_r (set_r s REG_F f) reg w in
  get_r t reg = w /\ rF t = f.
Proof.
  intros Hr Hf t. subst t. split.
  - apply get_set_same. exact Hr.
  - rewrite rF_get, get_set_other by (unfold REG_F in *; lia).
    apply get_set_same. unfold REG_F. lia.
Qed.

(** X17: on a well-formed state each CB rotate or shift (RLC, RRC, RL, RR, SLA, SRA, SRL and SLL) on any of A, B, C, D, E, H, L stores the rotated or shifted value, puts the shifted-out bit into C, clears N and H, sets S, Z and bits 3 and 5 from the result and P/V to its even parity, and changes only that register and F. *)
Theorem cb_shift_rotate (s : Z80State) (j k imm : Z) :
  wf_state s -> 0 <= j < 8 -> 0 <= k < 7 ->
  let reg := at_ CB_REG_H k in
  let v := get_r s reg in
  let c := Z.b2z (Z.testbit (rF s) 0) in
  let t := h_exec_instruction s (cb_opcode j k) imm in
  get_r t reg = cb_result j v c /\
  Z.testbit (rF t) 0 = cb_carry j v /\
  cb_flag_props (rF t) (get_r t reg) /\
  t = set_r (set_r s REG_F (rF t)) reg (get_r t reg).
Proof.
  intros Hwf Hj Hk reg v c t. subst t.
  rewrite exec_cb by assumption. fold reg.
  destruct (cb_reg_range k Hk) as [Hr HrF]. fold reg in Hr, HrF.
  assert (Hv : 0 <= v < 256) by (apply wf_get_r; assumption).
  assert (Hf : 0 <= rF s < 256) by (rewrite rF_get; apply wf_get_r; [assumption | unfold REG_F; lia]).
  pose proof (cb_check_any j v (rF s) Hj Hv Hf) as H.
  unfold cb_check, cb_ok in H. unpack H.
  unfold cb_assign. fold v. rewrite cb_transfer. cbv beta iota.
  destruct (set_r_reg_F s reg (rF (fst (cb_fun j (af_state 0 (rF s)) v)))
              (snd (cb_fun j (af_state 0 (rF s)) v)) Hr HrF) as [E1 E2].
  cbv zeta in E1, E2. rewrite E1, E2.
  split; [exact H1|]. split; [exact H0|]. split; [apply cb_flags_ok_true; assumption|].
  reflexivity.
Qed.

(** ** BIT, RES and SET *)

Lemma exec_bit_res_set (s : Z80State) (b k imm : Z) :
  0 <= b < 8 -> 0 <= k < 7 ->
  let reg := at_ CB_REG_H k in
  h_exec_instruction s (OP_BIT_START + 7 * b + k) imm = h_exec_bit s (get_r s reg) b /\
  h_exec_instruction s (OP_RES_START + 7 * b + k) imm =
    set_r s reg (u8 (Z.land (get_r s reg) (Z.lxor 0xFFFFFFFF (Z.shiftl 1 b)))) /\
  h_exec_instruction s (OP_SET_START + 7 * b + k) imm =
    set_r s reg (u8 (Z.lor (get_r s reg) (Z.shiftl 1 b))).
Proof.
  intros Hb Hk.
  assert (Hb' : b = 0 \/ b = 1 \/ b = 2 \/ b = 3 \/ b = 4 \/ b = 5 \/ b = 6 \/ b = 7) by lia.
  assert (Hk' : k = 0 \/ k = 1 \/ k = 2 \/ k = 3 \/ k = 4 \/ k = 5 \/ k = 6) by lia.
  destruct Hb' as [->|[->|[->|[->|[->|[->|[->| ->]]]]]]];
    destruct Hk' as [->|[->|[->|[->|[->|[->| ->]]]]]]; cbv zeta; (split; [|split]; reflexivity).
Qed.

Definition bit_check (v b f : Z) : bool :=
  let g := rF (h_exec_bit (af_state 0 f) v b) in
  Bool.eqb (Z.testbit g 0) (Z.testbit f 0) && negb (Z.testbit g 1) && Z.testbit g 4 &&
  Bool.eqb (Z.testbit g 6) (negb (Z.testbit v b)) &&
  Bool.eqb (Z.testbit g 2) (negb (Z.testbit v b)) &&
  Bool.eqb (Z.testbit g 7) ((b =? 7) && Z.testbit v 7) &&
  Bool.eqb (Z.testbit g 3) (Z.testbit v 3) && Bool.eqb (Z.testbit g 5) (Z.testbit v 5).

Definition res_set_check (v b : Z) : bool :=
  (u8 (Z.land v (Z.lxor 0xFFFFFFFF (Z.shiftl 1 b))) =? Z.clearbit v b) &&
  (u8 (Z.lor v (Z.shiftl 1 b)) =? Z.setbit v b).

Lemma bit_all :
  forallb (fun v => forallb (fun b => bit_check v b 0 && bit_check v b 1 && res_set_check v b)
                      (Zrange 8)) (Zrange 256) = true.
Proof. vm_compute. reflexivity. Qed.

Lemma bit_transfer (s : Z80State) (v b : Z) :
  h_exec_bit s v b =
  set_r s REG_F (rF (h_exec_bit (af_state 0 (Z.b2z (Z.testbit (rF s) 0))) v b)).
Proof.
  unfold h_exec_bit. destruct s as [a f b0 c d e h l p]. cbn [rF af_state].
  rewrite carry_b2z. destruct (Z.testbit f 0); reflexivity.
Qed.

(** X18: on a well-formed state BIT b,r changes only F: C kept, N cleared, H set, Z and P/V set iff bit b of r is 0, S set iff b = 7 and bit 7 is set, bits 3 and 5 copied from r; RES b,r and SET b,r clear or set bit b of r and change nothing else. *)
Theorem bit_res_set (s : Z80State) (b k imm : Z) :
  wf_state s -> 0 <= b < 8 -> 0 <= k < 7 ->
  let reg := at_ CB_REG_H k in
  let v := get_r s reg in
  let t1 := h_exec_instruction s (OP_BIT_START + 7 * b + k) imm in
  let t2 := h_exec_instruction s (OP_RES_START + 7 * b + k) imm in
  let t3 := h_exec_instruction s (OP_SET_START + 7 * b + k) imm in
  t1 = set_r s REG_F (rF t1) /\
  Z.testbit (rF t1) 0 = Z.testbit (rF s) 0 /\ Z.testbit (rF t1) 1 = false /\
  Z.testbit (rF t1) 4 = true /\
  Z.testbit (rF t1) 6 = negb (Z.testbit v b) /\ Z.testbit (rF t1) 2 = negb (Z.testbit v b) /\
  Z.testbit (rF t1) 7 = (b =? 7) && Z.testbit v 7 /\
  Z.testbit (rF t1) 3 = Z.testbit v 3 /\ Z.testbit (rF t1) 5 = Z.testbit v 5 /\
  t2 = set_r s reg (Z.clearbit v b) /\
  t3 = set_r s reg (Z.setbit v b).
Proof.
  intros Hwf Hb Hk reg v t1 t2 t3.
  destruct (exec_bit_res_set s b k imm Hb Hk) as (E1 & E2 & E3). fold reg v in E1, E2, E3.
  subst t1 t2 t3. rewrite E1, E2, E3.
  destruct (cb_reg_range k Hk) as [Hr _]. fold reg in Hr.
  assert (Hv : 0 <= v < 256) by (apply wf_get_r; assumption).
  pose proof bit_all as H.
  assert (Hb8 : 0 <= b < Z.of_nat 8) by (cbn; lia).
  pose proof (Zrange_forallb _ 256 H v Hv) as H'. cbv beta in H'.
  pose proof (Zrange_forallb _ 8 H' b Hb8) as Hc. cbv beta in Hc.
  apply andb_prop in Hc as [Hc Hrs]. apply andb_prop in Hc as [Hc0 Hc1].
  unfold res_set_check in Hrs. unpack Hrs. rewrite Hrs0, Hrs.
  rewrite bit_transfer.
  assert (Hcb : bit_check v b (Z.b2z (Z.testbit (rF s) 0)) = true)
    by (destruct (Z.testbit (rF s) 0); assumption).
  assert (Hf : forall g, rF (set_r s REG_F g) = g) by (intros; destruct s; reflexivity).
  rewrite !Hf.
  unfold bit_check in Hcb. unpack Hcb.
  assert (Hcb' : Z.testbit (Z.b2z (Z.testbit (rF s) 0)) 0 = Z.testbit (rF s) 0)
    by (destruct (Z.testbit (rF s) 0); reflexivity).
  rewrite Hcb' in Hcb6.
  split; [destruct s; reflexivity|].
  repeat split; try assumption; try (apply negb_true_iff; assumption).
  all: reflexivity.
Qed.

(** ** Registers stay bytes and the pair register stays 16-bit *)

Lemma u8_byte (x : Z) : 0 <= u8 x < 256.
Proof.
  unfold u8. change 255 with (Z.ones 8). rewrite Z.land_ones by lia.
  apply Z.mod_pos_bound. lia.
Qed.

Lemma u16_word (x : Z) : 0 <= u16 x < 65536.
Proof. rewrite u16_mod. apply Z.mod_pos_bound. lia. Qed.

Lemma lor_byte (a b : Z) : 0 <= a < 256 -> 0 <= b < 256 -> 0 <= Z.lor a b < 256.
Proof.
  intros Ha Hb.
  pose proof (forall_bytes2 (fun a b => (0 <=? Z.lor a b) && (Z.lor a b <? 256))
                ltac:(vm_compute; reflexivity) a b Ha Hb) as H.
  apply andb_prop in H as [H1 H2]. apply Z.leb_le in H1. apply Z.ltb_lt in H2. lia.
Qed.

Lemma land_byte_r (a b : Z) : 0 <= b < 256 -> 0 <= Z.land a b < 256.
Proof.
  intros Hb. replace b with (u8 b) by (rewrite u8_mod; apply Z.mod_small; lia).
  unfold u8. rewrite Z.land_assoc. apply u8_byte.
Qed.

Lemma land_byte_l (a b : Z) : 0 <= a < 256 -> 0 <= Z.land a b < 256.
Proof. intros Ha. rewrite Z.land_comm. apply land_byte_r. exact Ha. Qed.

Lemma shiftr_byte (a k : Z) : 0 <= a < 256 -> 0 <= k -> 0 <= Z.shiftr a k < 256.
Proof.
  intros Ha Hk. rewrite Z.shiftr_div_pow2 by lia.
  assert (Hp : 0 < 2 ^ k) by (apply Z.pow_pos_nonneg; lia).
  split; [apply Z.div_pos; lia|]. apply Z.div_lt_upper_bound; nia.
Qed.

Lemma at_byte (t : list Z) (i : Z) :
  forallb (fun x => (0 <=? x) && (x <? 256)) t = true -> 0 <= at_ t i < 256.
Proof.
  intros H. rewrite forallb_forall in H. unfold at_.
  destruct (nth_in_or_default (Z.to_nat i) t 0) as [Hin|Hd].
  - specialize (H _ Hin). apply andb_prop in H as [H1 H2].
    apply Z.leb_le in H1. apply Z.ltb_lt in H2. lia.
  - rewrite Hd. lia.
Qed.

Lemma wf_set_r (s : Z80State) (i v : Z) :
  wf_state s -> 0 <= v < 256 -> wf_state (set_r s i v).
Proof.
  intros Hs Hv. destruct s. unfold wf_state in *. cbn in Hs.
  destruct i as [|[p|p|]|p]; try destruct p as [p|p|]; try destruct p as [p|p|];
    cbn; tauto.
Qed.

Lemma wf_set_sp (s : Z80State) (v : Z) :
  wf_state s -> 0 <= v < 65536 -> wf_state (set_sp s v).
Proof. intros Hs Hv. destruct s. unfold wf_state in *. cbn in *. tauto. Qed.

Lemma wf_set_pair (s : Z80State) (p v : Z) :
  wf_state s -> 0 <= v < 65536 -> wf_state (h_set_pair s p v).
Proof.
  intros Hs Hv. unfold h_set_pair.
  destruct p as [|[q|q|]|q]; try destruct q as [q|q|]; try destruct q as [q|q|];
    repeat apply wf_set_r; try apply u8_byte; try apply wf_set_sp; assumption.
Qed.

Lemma wf_get_any (s : Z80State) (i : Z) : wf_state s -> 0 <= get_r s i < 256.
Proof.
  intros Hs. unfold wf_state in Hs. destruct s. cbn in Hs.
  destruct i as [|[p|p|]|p]; try destruct p as [p|p|]; try destruct p as [p|p|];
    cbn; lia.
Qed.

Lemma wf_rA (s : Z80State) : wf_state s -> 0 <= rA s < 256.
Proof. unfold wf_state. tauto. Qed.
Lemma wf_rF (s : Z80State) : wf_state s -> 0 <= rF s < 256.
Proof. unfold wf_state. tauto. Qed.
Lemma wf_rB (s : Z80State) : wf_state s -> 0 <= rB s < 256.
Proof. unfold wf_state. tauto. Qed.
Lemma wf_rC (s : Z80State) : wf_state s -> 0 <= rC s < 256.
Proof. unfold wf_state. tauto. Qed.
Lemma wf_rD (s : Z80State) : wf_state s -> 0 <= rD s < 256.
Proof. unfold wf_state. tauto. Qed.
Lemma wf_rE (s : Z80State) : wf_state s -> 0 <= rE s < 256.
Proof. unfold wf_state. tauto. Qed.
Lemma wf_rH (s : Z80State) : wf_state s -> 0 <= rH s < 256.
Proof. unfold wf_state. tauto. Qed.
Lemma wf_rL (s : Z80State) : wf_state s -> 0 <= rL s < 256.
Proof. unfold wf_state. tauto. Qed.

Lemma wf_hl_of (s : Z80State) : wf_state s -> 0 <= hl_of s < 65536.
Proof. intros Hs. exact (pair_bound s 2 Hs ltac:(lia)). Qed.

Ltac wfs :=
  lazymatch goal with
  | |- wf_state (set_r _ _ _) => apply wf_set_r; wfs
  | |- wf_state (set_sp _ _) => apply wf_set_sp; wfs
  | |- wf_state (h_set_pair _ _ _) => apply wf_set_pair; wfs
  | |- wf_state (if ?c then _ else _) => destruct c; wfs
  | |- wf_state _ => assumption
  | |- 0 <= u8 _ < 256 => apply u8_byte
  | |- 0 <= u16 _ < 65536 => apply u16_word
  | |- 0 <= hl_of _ < 65536 => apply wf_hl_of; wfs
  | |- 0 <= Z.lor _ _ < 256 => apply lor_byte; wfs
  | |- 0 <= Z.land _ _ < 256 =>
      first [apply land_byte_r; solve [wfs] | apply land_byte_l; wfs]
  | |- 0 <= Z.shiftr _ _ < 256 => apply shiftr_byte; [wfs | lia]
  | |- 0 <= bsel_h ?c _ _ < 256 => unfold bsel_h; destruct c; wfs
  | |- 0 <= (if ?c then _ else _) < 256 => destruct c; wfs
  | |- 0 <= sz53 _ < 256 => apply at_byte; vm_compute; reflexivity
  | |- 0 <= sz53p _ < 256 => apply at_byte; vm_compute; reflexivity
  | |- 0 <= parity _ < 256 => apply at_byte; vm_compute; reflexivity
  | |- 0 <= at_ _ _ < 256 => apply at_byte; vm_compute; reflexivity
  | |- 0 <= get_r _ _ < 256 => apply wf_get_any; wfs
  | |- 0 <= rA _ < 256 => apply wf_rA; wfs
  | |- 0 <= rF _ < 256 => apply wf_rF; wfs
  | |- 0 <= rB _ < 256 => apply wf_rB; wfs
  | |- 0 <= rC _ < 256 => apply wf_rC; wfs
  | |- 0 <= rD _ < 256 => apply wf_rD; wfs
  | |- 0 <= rE _ < 256 => apply wf_rE; wfs
  | |- 0 <= rH _ < 256 => apply wf_rH; wfs
  | |- 0 <= rL _ < 256 => apply wf_rL; wfs
  | |- 0 <= ?x < _ => first [assumption | unfold FLAG_C, FLAG_N, FLAG_P, FLAG_V, FLAG_3,
                            FLAG_H, FLAG_5, FLAG_Z, FLAG_S; lia]
  end.

Lemma exec_keeps_wf_branch (b : Branch) (s : Z80State) (imm : Z) :
  wf_state s -> 0 <= imm < 65536 -> wf_state (exec_branch b s imm).
Proof.
  intros Hs Hi.
  destruct b; cbn [exec_branch];
    unfold h_exec_daa; unfold h_alu_add, h_alu_adc, h_alu_sub, h_alu_sbc, h_alu_and, h_alu_xor, h_alu_or,
      h_alu_cp, h_alu_inc, h_alu_dec, with_A_F, h_exec_bit, h_exec_add_hl,
      h_exec_adc_hl, h_exec_sbc_hl, cb_assign, h_cb_rlc, h_cb_rrc, h_cb_rl, h_cb_rr,
      h_cb_sla, h_cb_sra, h_cb_srl, h_cb_sll;
    repeat match goal with |- context [match ?x with _ => _ end] =>
      lazymatch type of x with Z => destruct x | positive => destruct x end end;
    cbv beta iota zeta; wfs.
Qed.

Lemma exec_keeps_wf (s : Z80State) (op imm : Z) :
  wf_state s -> 0 <= imm < 65536 -> wf_state (h_exec_instruction s op imm).
Proof.
  intros Hs Hi. unfold h_exec_instruction.
  destruct (decode_op op) as [b|]; [apply exec_keeps_wf_branch|]; assumption.
Qed.

Lemma exec_seq_keeps_wf (s : Z80State) (ops imms : list Z) (n : nat) :
  wf_state s -> Forall (fun x => 0 <= x < 65536) imms ->
  wf_state (h_exec_seq s ops imms n).
Proof.
  intros Hs Hi. unfold h_exec_seq.
  generalize (seq 0 n) as l. intros l. revert s Hs.
  induction l as [|i l IH]; intros s Hs; [exact Hs|].
  cbn [fold_left]. apply IH. apply exec_keeps_wf; [exact Hs|].
  destruct (nth_in_or_default i imms 0) as [Hin|Hd].
  - rewrite Forall_forall in Hi. exact (Hi _ Hin).
  - rewrite Hd. lia.
Qed.

Lemma app_same_length (l1 l2 r1 r2 : list Z) :
  length l1 = length l2 -> l1 ++ r1 = l2 ++ r2 -> l1 = l2 /\ r1 = r2.
Proof.
  revert l2. induction l1 as [|x l1 IH]; intros [|y l2] Hl H; try discriminate Hl.
  - split; [reflexivity | exact H].
  - injection H as -> H. injection Hl as Hl. destruct (IH l2 Hl H) as [-> ->].
    split; reflexivity.
Qed.

Lemma concat_images (f g : nat -> Z80State) (l : list nat) :
  concat (map (fun v => image (f v)) l) = concat (map (fun v => image (g v)) l) ->
  forall v, In v l -> image (f v) = image (g v).
Proof.
  induction l as [|x l IH]; intros H v Hv; [contradiction|].
  cbn [map concat] in H. apply app_same_length in H as [H1 H2]; [|reflexivity].
  destruct Hv as [<-|Hv]; [exact H1 | exact (IH H2 v Hv)].
Qed.

Lemma image_inj (a b : Z80State) :
  wf_state a -> wf_state b -> image a = image b -> a = b.
Proof.
  intros Ha Hb H. unfold image in H.
  injection H as HA HF HB HC HD HE HH HL Hhi Hlo.
  assert (Hsp : sp a = sp b).
  { rewrite <- (word_split_join (sp a)), <- (word_split_join (sp b)) by
      (unfold wf_state in *; tauto).
    rewrite Hhi, Hlo. reflexivity. }
  destruct a, b. cbn in *. subst. reflexivity.
Qed.

Lemma test_vectors_wf (v : nat) :
  (v < NUM_VECTORS)%nat -> wf_state (nth v h_test_vectors zero_state).
Proof.
  intros Hv. unfold NUM_VECTORS in Hv.
  do 8 (destruct v as [|v]; [vm_compute; repeat split; discriminate|]). lia.
Qed.

(** X20: with 16-bit immediates, two programs have equal fingerprints iff they reach identical final states from each of the eight test vectors. *)
Theorem fingerprint_separates (ops1 imms1 ops2 imms2 fp1 fp2 : list Z) (n1 n2 : nat) :
  Forall (fun x => 0 <= x < 65536) imms1 -> Forall (fun x => 0 <= x < 65536) imms2 ->
  length fp1 = FP_LEN -> length fp2 = FP_LEN ->
  (h_fingerprint ops1 imms1 n1 fp1 = h_fingerprint ops2 imms2 n2 fp2 <->
   forall v, (v < NUM_VECTORS)%nat ->
     h_exec_seq (nth v h_test_vectors zero_state) ops1 imms1 n1 =
     h_exec_seq (nth v h_test_vectors zero_state) ops2 imms2 n2).
Proof.
  intros Hi1 Hi2 Hl1 Hl2.
  rewrite (h_fingerprint_image _ _ _ _ Hl1), (h_fingerprint_image _ _ _ _ Hl2).
  split.
  - intros H v Hv. apply image_inj.
    + apply exec_seq_keeps_wf; [apply test_vectors_wf; exact Hv | exact Hi1].
    + apply exec_seq_keeps_wf; [apply test_vectors_wf; exact Hv | exact Hi2].
    + apply (concat_images _ _ _ H v). apply in_seq. lia.
  - intros H. f_equal. apply map_ext_in. intros v Hv. apply in_seq in Hv.
    rewrite H by lia. reflexivity.
Qed.

(** X19: every instruction, and so every instruction sequence, maps a state whose registers are bytes and whose SP is below 65536 to such a state, given 16-bit immediates. *)
Theorem wf_invariant (s : Z80State) (op imm : Z) (ops imms : list Z) (n : nat) :
  wf_state s -> 0 <= imm < 65536 -> Forall (fun x => 0 <= x < 65536) imms ->
  wf_state (h_exec_instruction s op imm) /\ wf_state (h_exec_seq s ops imms n).
Proof.
  intros Hs Hi His. split.
  - apply exec_keeps_wf; assumption.
  - apply exec_seq_keeps_wf; assumption.
Qed.

Lemma wf_invariant_witness :
  wf_state (nth 3 h_test_vectors zero_state) /\ 0 <= 65535 < 65536 /\
  Forall (fun x => 0 <= x < 65536) [0; 65535] /\
  wf_state (h_exec_instruction (nth 3 h_test_vectors zero_state) OP_LD_RR_NN_START 65535) /\
  wf_state (h_exec_seq (nth 3 h_test_vectors zero_state) [OP_NEG; OP_ADD_HL_START] [0; 65535] 2).
Proof.
  assert (Hwf : wf_state (nth 3 h_test_vectors zero_state)) by (vm_compute; repeat split; discriminate).
  assert (Hi : 0 <= 65535 < 65536) by lia.
  assert (Hl : Forall (fun x => 0 <= x < 65536) [0; 65535]) by (repeat constructor; lia).
  split; [exact Hwf|]. split; [exact Hi|]. split; [exact Hl|].
  exact (wf_invariant _ OP_LD_RR_NN_START 65535 [OP_NEG; OP_ADD_HL_START] [0; 65535] 2 Hwf Hi Hl).
Defined.

Lemma rotate_accumulator_witness :
  wf_state (nth 5 h_test_vectors zero_state) /\
  rA (h_exec_instruction (nth 5 h_test_vectors zero_state) OP_RLCA 0) =
    (2 * rA (nth 5 h_test_vectors zero_state)) mod 256 + rA (nth 5 h_test_vectors zero_state) / 128.
Proof.
  assert (Hwf : wf_state (nth 5 h_test_vectors zero_state)) by (vm_compute; repeat split; discriminate).
  split; [exact Hwf|]. exact (proj1 (rotate_accumulator _ 0 Hwf)).
Defined.

Lemma cpl_scf_ccf_witness :
  wf_state (nth 6 h_test_vectors zero_state) /\
  rA (h_exec_instruction (nth 6 h_test_vectors zero_state) OP_CPL 0) =
    255 - rA (nth 6 h_test_vectors zero_state).
Proof.
  assert (Hwf : wf_state (nth 6 h_test_vectors zero_state)) by (vm_compute; repeat split; discriminate).
  split; [exact Hwf|]. exact (proj1 (cpl_scf_ccf _ 0 0 Hwf)).
Defined.

Lemma neg_semantics_witness :
  wf_state (nth 2 h_test_vectors zero_state) /\
  rA (h_exec_instruction (nth 2 h_test_vectors zero_state) OP_NEG 0) =
    (256 - rA (nth 2 h_test_vectors zero_state)) mod 256.
Proof.
  assert (Hwf : wf_state (nth 2 h_test_vectors zero_state)) by (vm_compute; repeat split; discriminate).
  split; [exact Hwf|]. exact (proj1 (neg_semantics _ 0 Hwf)).
Defined.

Lemma daa_bcd_arith_witness :
  0 <= 45 < 100 /\ 0 <= 38 < 100 /\ rA (set_r zero_state REG_A (bcd 45)) = bcd 45 /\
  rA (h_exec_instruction (h_exec_instruction (set_r zero_state REG_A (bcd 45)) OP_ADD_A_N (bcd 38))
        OP_DAA 0) = bcd ((45 + 38) mod 100).
Proof.
  assert (Hx : 0 <= 45 < 100) by lia. assert (Hy : 0 <= 38 < 100) by lia.
  assert (Ha : rA (set_r zero_state REG_A (bcd 45)) = bcd 45) by reflexivity.
  split; [exact Hx|]. split; [exact Hy|]. split; [exact Ha|].
  exact (proj1 (daa_bcd_arith _ 45 38 0 Hx Hy Ha)).
Defined.


Lemma add_hl_semantics_witness :
  wf_state (nth 1 h_test_vectors zero_state) /\ 0 <= 0 < 4 /\
  h_get_pair (h_exec_instruction (nth 1 h_test_vectors zero_state) (OP_ADD_HL_START + 0) 0) 2 =
    (h_get_pair (nth 1 h_test_vectors zero_state) 2 + h_get_pair (nth 1 h_test_vectors zero_state) 0)
      mod 65536.
Proof.
  assert (Hwf : wf_state (nth 1 h_test_vectors zero_state)) by (vm_compute; repeat split; discriminate).
  assert (Hp : 0 <= 0 < 4) by lia.
  split; [exact Hwf|]. split; [exact Hp|]. exact (proj1 (add_hl_semantics _ 0 0 Hwf Hp)).
Defined.

Lemma adc_hl_semantics_witness :
  wf_state (nth 1 h_test_vectors zero_state) /\ 0 <= 1 < 4 /\
  h_get_pair (h_exec_instruction (nth 1 h_test_vectors zero_state) (OP_ADC_HL_START + 1) 0) 2 =
    (h_get_pair (nth 1 h_test_vectors zero_state) 2 + h_get_pair (nth 1 h_test_vectors zero_state) 1
     + Z.b2z (Z.testbit (rF (nth 1 h_test_vectors zero_state)) 0)) mod 65536.
Proof.
  assert (Hwf : wf_state (nth 1 h_test_vectors zero_state)) by (vm_compute; repeat split; discriminate).
  assert (Hp : 0 <= 1 < 4) by lia.
  split; [exact Hwf|]. split; [exact Hp|]. exact (proj1 (adc_hl_semantics _ 1 0 Hwf Hp)).
Defined.

Lemma sbc_hl_semantics_witness :
  wf_state (nth 7 h_test_vectors zero_state) /\ 0 <= 3 < 4 /\
  h_get_pair (h_exec_instruction (nth 7 h_test_vectors zero_state) (OP_SBC_HL_START + 3) 0) 2 =
    (h_get_pair (nth 7 h_test_vectors zero_state) 2 - h_get_pair (nth 7 h_test_vectors zero_state) 3
     - Z.b2z (Z.testbit (rF (nth 7 h_test_vectors zero_state)) 0)) mod 65536.
Proof.
  assert (Hwf : wf_state (nth 7 h_test_vectors zero_state)) by (vm_compute; repeat split; discriminate).
  assert (Hp : 0 <= 3 < 4) by lia.
  split; [exact Hwf|]. split; [exact Hp|]. exact (proj1 (sbc_hl_semantics _ 3 0 Hwf Hp)).
Defined.

Lemma cb_shift_rotate_witness :
  wf_state (nth 5 h_test_vectors zero_state) /\ 0 <= 2 < 8 /\ 0 <= 1 < 7 /\
  get_r (h_exec_instruction (nth 5 h_test_vectors zero_state) (cb_opcode 2 1) 0) (at_ CB_REG_H 1) =
    cb_result 2 (get_r (nth 5 h_test_vectors zero_state) (at_ CB_REG_H 1))
      (Z.b2z (Z.testbit (rF (nth 5 h_test_vectors zero_state)) 0)).
Proof.
  assert (Hwf : wf_state (nth 5 h_test_vectors zero_state)) by (vm_compute; repeat split; discriminate).
  assert (Hj : 0 <= 2 < 8) by lia. assert (Hk : 0 <= 1 < 7) by lia.
  split; [exact Hwf|]. split; [exact Hj|]. split; [exact Hk|].
  exact (proj1 (cb_shift_rotate _ 2 1 0 Hwf Hj Hk)).
Defined.

Lemma bit_res_set_witness :
  wf_state (nth 6 h_test_vectors zero_state) /\ 0 <= 3 < 8 /\ 0 <= 2 < 7 /\
  h_exec_instruction (nth 6 h_test_vectors zero_state) (OP_BIT_START + 7 * 3 + 2) 0 =
    set_r (nth 6 h_test_vectors zero_state) REG_F
      (rF (h_exec_instruction (nth 6 h_test_vectors zero_state) (OP_BIT_START + 7 * 3 + 2) 0)).
Proof.
  assert (Hwf : wf_state (nth 6 h_test_vectors zero_state)) by (vm_compute; repeat split; discriminate).
  assert (Hb : 0 <= 3 < 8) by lia. assert (Hk : 0 <= 2 < 7) by lia.
  split; [exact Hwf|]. split; [exact Hb|]. split; [exact Hk|].
  exact (proj1 (bit_res_set _ 3 2 0 Hwf Hb Hk)).
Defined.

Lemma fingerprint_separates_witness :
  Forall (fun x => 0 <= x < 65536) [0; 7] /\ Forall (fun x => 0 <= x < 65536) [0] /\
  length (repeat 0 80) = FP_LEN /\
  (h_fingerprint [OP_NEG; OP_NEG] [0; 7] 2 (repeat 0 80) =
     h_fingerprint [OP_NOP] [0] 1 (repeat 0 80) <->
   forall v, (v < NUM_VECTORS)%nat ->
     h_exec_seq (nth v h_test_vectors zero_state) [OP_NEG; OP_NEG] [0; 7] 2 =
     h_exec_seq (nth v h_test_vectors zero_state) [OP_NOP] [0] 1).
Proof.
  assert (H1 : Forall (fun x => 0 <= x < 65536) [0; 7]) by (repeat constructor; lia).
  assert (H2 : Forall (fun x => 0 <= x < 65536) [0]) by (repeat constructor; lia).
  assert (Hl : length (repeat 0 80) = FP_LEN) by reflexivity.
  split; [exact H1|]. split; [exact H2|]. split; [exact Hl|].
  exact (fingerprint_separates _ _ _ _ _ _ 2 1 H1 H2 Hl Hl).
Defined.
